(** * discord-quote-bot: the [messageCreate] handler and its three command flows

    A shallow embedding of the bot's message handler ([!inspire],
    [!subscribe], [!unsubscribe]) together with the helper functions it
    calls.  The DynamoDB table is a finite map from [UserId] to items, every
    call that leaves the process (axios, discord.js, SNS, DynamoDB, the
    loggers) is recorded in a log in program order, and the answers of the
    outside world are supplied by an environment record, so that each handler
    is an executable function of the environment, the configuration, the
    incoming message and the table. *)

From Stdlib Require Import Ascii ZArith Lia.
From stdpp Require Import gmap strings list fin_maps.

Local Open Scope string_scope.

(** ** JavaScript values used by the handler *)

(** Text is modelled as a string of 8-bit characters standing for ASCII
    text.  [isWhiteSpace] is the ASCII part of what [String.prototype.trim]
    strips (ECMAScript WhiteSpace and LineTerminator): TAB, LF, VT, FF, CR and
    SPACE. *)
Definition isWhiteSpace (c : ascii) : bool :=
  match N_of_ascii c with
  | 9 | 10 | 11 | 12 | 13 | 32 => true
  | _ => false
  end%N.

Fixpoint trimStart (s : string) : string :=
  match s with
  | EmptyString => EmptyString
  | String c rest => if isWhiteSpace c then trimStart rest else s
  end.

Fixpoint trimEnd (s : string) : string :=
  match s with
  | EmptyString => EmptyString
  | String c rest =>
      match trimEnd rest with
      | EmptyString => if isWhiteSpace c then EmptyString else String c EmptyString
      | kept => String c kept
      end
  end.

(** [s.trim()] *)
Definition trim (s : string) : string := trimEnd (trimStart s).

(** [s.startsWith(p)] *)
Fixpoint startsWith (s p : string) {struct p} : bool :=
  match p with
  | EmptyString => true
  | String a p' =>
      match s with
      | EmptyString => false
      | String b s' => Ascii.eqb a b && startsWith s' p'
      end
  end.

(** Truthiness of a value that is a string or [null], as tested by
    [if (phoneNumber)]: [null] and the empty string are falsy. *)
Definition truthy (v : option string) : bool :=
  match v with
  | Some (String _ _) => true
  | _ => false
  end.

(** ** The data model *)

(** The item written by [savePhoneNumber].  Every item of the table is taken
    to have a string [PhoneNumber] attribute, which may be empty. *)
Record Item := mkItem { UserId : string; PhoneNumber : string }.

(** [process.env] as read by the handler. *)
Record ProcessEnv := mkProcessEnv { TOPIC_ARN : string; DYNAMODB_TABLE : string }.

(** The fields of a discord.js message that the handler reads. *)
Record Message := mkMessage {
  author_id : string;
  author_bot : bool;
  content : string
}.

(** A message arriving in the direct-message channel while the collector of
    [awaitMessages] is running: who wrote it, its text, and how many
    milliseconds after the start of the wait it arrived. *)
Record Incoming := mkIncoming { from : string; text : string; at_ms : Z }.

(** The ways a call to the outside can fail. *)
Inductive Error :=
| SourceUnavailable   (* axios.get rejected or the body was not a quote *)
| GatewayError        (* a discord.js send or createDM rejected *)
| Timeout             (* awaitMessages ended by its timer *)
| DeliveryRejected    (* SNS rejected a Publish or Subscribe *)
| StoreUnavailable    (* DynamoDB rejected a command *)
| TypeError.          (* property access on undefined *)

(** Every place where the program talks to the outside. *)
Inductive Call :=
| AxiosGet (url : string)
| ChannelSend (body : string)                       (* message.channel.send *)
| AuthorSend (body : string)                        (* message.author.send *)
| CreateDM                                          (* message.author.createDM *)
| DmSend (body : string)                            (* dmChannel.send *)
| AwaitMessages (author : string) (max : nat) (time : Z)
| SnsPublish (phoneNumber message : string)         (* PublishCommand *)
| SnsSubscribe (protocol topicArn endpoint : string)(* SubscribeCommand *)
| DdbGet (tableName userId : string)                (* GetCommand *)
| DdbPut (tableName : string) (item : Item)         (* PutCommand *)
| DdbDelete (tableName userId : string)             (* DeleteCommand *)
| LoggerError (label : string) (error : Error)      (* logger.error *)
| LoggerInfo (line : string)                        (* logger.info *)
| ConsoleError (label : string) (error : Error).    (* console.error *)

Inductive Outcome := Fulfilled | Rejected (e : Error).

#[global] Instance Item_eq_dec : EqDecision Item.
Proof. solve_decision. Defined.
#[global] Instance Error_eq_dec : EqDecision Error.
Proof. solve_decision. Defined.
#[global] Instance Call_eq_dec : EqDecision Call.
Proof. solve_decision. Defined.

Record Entry := mkEntry { call : Call; outcome : Outcome }.

(** The answers of the outside world during one run of the handler.  Within
    one run every call site is reached at most once and the sends differ in
    their text, so an answer per call describes every behaviour. *)
Record Env := mkEnv {
  axios_get : string -> option (string * string);   (* data[0].q, data[0].a *)
  channel_send : string -> bool;
  author_send : string -> bool;
  author_createDM : bool;
  dm_send : string -> bool;
  dm_inbox : list Incoming;                         (* in order of arrival *)
  sns_publish : string -> string -> option string;  (* MessageId *)
  sns_subscribe : string -> string -> string -> option string; (* SubscriptionArn *)
  ddb_up : Call -> bool
}.

(** ** The monad of the handler: table state, exceptions and the call log *)

Inductive Result (A : Type) :=
| Return (a : A)
| Throw (e : Error).
Arguments Return {A} a.
Arguments Throw {A} e.

Record Out (A : Type) := mkOut {
  res : Result A;
  tbl : gmap string Item;
  log : list Entry
}.
Arguments mkOut {A} res tbl log.
Arguments res {A} o.
Arguments tbl {A} o.
Arguments log {A} o.

Definition M (A : Type) : Type := gmap string Item -> Out A.

Definition ret {A} (a : A) : M A := fun t => mkOut (Return a) t [].

Definition throw {A} (e : Error) : M A := fun t => mkOut (Throw e) t [].

Definition bind {A B} (m : M A) (k : A -> M B) : M B := fun t =>
  match m t with
  | mkOut (Return a) t1 l1 =>
      match k a t1 with
      | mkOut r t2 l2 => mkOut r t2 (l1 ++ l2)%list
      end
  | mkOut (Throw e) t1 l1 => mkOut (Throw e) t1 l1
  end.

(** [try { m } catch (error) { h error }] *)
Definition try_catch {A} (m : M A) (h : Error -> M A) : M A := fun t =>
  match m t with
  | mkOut (Return a) t1 l1 => mkOut (Return a) t1 l1
  | mkOut (Throw e) t1 l1 =>
      match h e t1 with
      | mkOut r t2 l2 => mkOut r t2 (l1 ++ l2)%list
      end
  end.

Notation "'await' x ':=' m 'in' k" := (bind m (fun x => k))
  (at level 10, x name, m at level 100, k at level 200).
Notation "m ';;' k" := (bind m (fun _ => k))
  (at level 100, k at level 200, right associativity).

(** A call whose promise fulfils with [a] or rejects with [e]. *)
Definition perform {A} (c : Call) (answer : option A) (e : Error) : M A := fun t =>
  match answer with
  | Some a => mkOut (Return a) t [mkEntry c Fulfilled]
  | None => mkOut (Throw e) t [mkEntry c (Rejected e)]
  end.

Definition guard (b : bool) : option unit := if b then Some tt else None.

(** A synchronous logging call. *)
Definition note (c : Call) : M unit := perform c (Some tt) TypeError.

(** The collector behind
    [awaitMessages({ filter, max, time, errors: ["time"] })]: messages that
    pass the filter before the timer fires are collected up to [max]; the
    promise fulfils when [max] were collected and rejects otherwise. *)
Definition collect (filter : Incoming -> bool) (max : nat) (time : Z)
    (inbox : list Incoming) : option (list Incoming) :=
  let collected :=
    take max (List.filter (fun m => filter m && (at_ms m <? time)%Z) inbox) in
  if (length collected <? max)%nat then None else Some collected.

Section Bot.

Variable env : Env.
Variable process_env : ProcessEnv.

(** *** DynamoDB document client *)

Definition ddb_get (TableName : string) (Key : string) : M (option Item) := fun t =>
  let c := DdbGet TableName Key in
  if ddb_up env c
  then mkOut (Return (t !! Key)) t [mkEntry c Fulfilled]
  else mkOut (Throw StoreUnavailable) t [mkEntry c (Rejected StoreUnavailable)].

Definition ddb_put (TableName : string) (item : Item) : M unit := fun t =>
  let c := DdbPut TableName item in
  if ddb_up env c
  then mkOut (Return tt) (<[UserId item := item]> t) [mkEntry c Fulfilled]
  else mkOut (Throw StoreUnavailable) t [mkEntry c (Rejected StoreUnavailable)].

Definition ddb_delete (TableName : string) (Key : string) : M unit := fun t =>
  let c := DdbDelete TableName Key in
  if ddb_up env c
  then mkOut (Return tt) (delete Key t) [mkEntry c Fulfilled]
  else mkOut (Throw StoreUnavailable) t [mkEntry c (Rejected StoreUnavailable)].

(** *** Helper functions of the bot *)

Definition zenquotes : string := "https://zenquotes.io/api/random".

Definition getQuote : M string :=
  try_catch
    (await data := perform (AxiosGet zenquotes) (axios_get env zenquotes)
                     SourceUnavailable in
     ret (fst data +:+ " -" +:+ snd data))
    (fun error => note (LoggerError "Error fetching quote:" error);; throw error).

Definition publishMessage (phoneNumber message : string) : M string :=
  try_catch
    (perform (SnsPublish phoneNumber message)
       (sns_publish env phoneNumber message) DeliveryRejected)
    (fun error =>
       note (LoggerError "Could not publish to this phone number:" error);;
       throw error).

Definition subscribePhoneNumberToTopic (phoneNumber topicArn : string) : M string :=
  try_catch
    (perform (SnsSubscribe "sms" topicArn phoneNumber)
       (sns_subscribe env "sms" topicArn phoneNumber) DeliveryRejected)
    (fun error =>
       note (ConsoleError "Error subscribing phone number:" error);;
       throw error).

Definition getPhoneNumber (userId : string) : M (option string) :=
  try_catch
    (await response := ddb_get (DYNAMODB_TABLE process_env) userId in
     ret (match response with
          | Some item => Some (PhoneNumber item)
          | None => None
          end))
    (fun error =>
       note (LoggerError "Could not get phone number from DynamoDB:" error);;
       throw error).

Definition savePhoneNumber (userId phoneNumber : string) : M unit :=
  try_catch
    (ddb_put (DYNAMODB_TABLE process_env) (mkItem userId phoneNumber))
    (fun error =>
       note (LoggerError "Could not save phone number to DynamoDB:" error);;
       throw error).

Definition deletePhoneNumber (userId : string) : M unit :=
  try_catch
    (ddb_delete (DYNAMODB_TABLE process_env) userId)
    (fun error =>
       note (LoggerError "Could not delete phone number from DynamoDB:" error);;
       throw error).

(** *** discord.js *)

Definition channelSend (body : string) : M unit :=
  perform (ChannelSend body) (guard (channel_send env body)) GatewayError.

Definition authorSend (body : string) : M unit :=
  perform (AuthorSend body) (guard (author_send env body)) GatewayError.

Definition createDM : M unit :=
  perform CreateDM (guard (author_createDM env)) GatewayError.

Definition dmSend (body : string) : M unit :=
  perform (DmSend body) (guard (dm_send env body)) GatewayError.

Definition awaitMessages (author : string) (max : nat) (time : Z)
    : M (list Incoming) :=
  perform (AwaitMessages author max time)
    (collect (fun response => bool_decide (from response = author)) max time
       (dm_inbox env))
    Timeout.

(** [collected.first().content] *)
Definition first_content (collected : list Incoming) : M string :=
  match collected with
  | m :: _ => ret (text m)
  | [] => throw TypeError
  end.

(** *** The three branches of the handler *)

Definition inspire_ack : string :=
  "Your inspirational quote has been sent to your phone!".
Definition inspire_failed : string :=
  "Something went wrong while fetching your inspirational quote. Please try again later.".
Definition subscribe_prompt : string :=
  "Please reply with your phone number to subscribe to SMS notifications:".
Definition subscribe_thanks : string :=
  "Thank you! A confirmation message has been sent to your phone. Please reply to confirm your subscription.".
Definition subscribe_failed : string :=
  "There was an error subscribing your phone number. Please try again.".
Definition unsubscribe_done : string :=
  "Your phone number has been unsubscribed from SMS notifications.".
Definition not_subscribed : string :=
  "You are not subscribed to SMS notifications.".
Definition unsubscribe_failed : string :=
  "There was an error unsubscribing your phone number. Please try again.".

(** The marker of [`pending:${phoneNumber}`]. *)
Definition pending_marker : string := "pending:".

Definition handleInspire (message : Message) : M unit :=
  try_catch
    (await quote := getQuote in
     channelSend quote;;
     await phoneNumber := getPhoneNumber (author_id message) in
     if truthy phoneNumber then
       let number := default EmptyString phoneNumber in
       await messageId := publishMessage number quote in
       note (LoggerInfo ("Message published to phone number " +:+ number
                         +:+ " with message Id - " +:+ messageId));;
       authorSend inspire_ack
     else ret tt)
    (fun error =>
       note (LoggerError "Error handling !inspire command:" error);;
       authorSend inspire_failed).

Definition handleSubscribe (message : Message) : M unit :=
  try_catch
    (createDM;;
     dmSend subscribe_prompt;;
     await collected := awaitMessages (author_id message) 1 60000 in
     await reply := first_content collected in
     let phoneNumber := trim reply in
     let topicArn := TOPIC_ARN process_env in
     subscribePhoneNumberToTopic phoneNumber topicArn;;
     dmSend subscribe_thanks;;
     savePhoneNumber (author_id message) (pending_marker +:+ phoneNumber))
    (fun error =>
       note (LoggerError "Error handling !subscribe command:" error);;
       authorSend subscribe_failed).

Definition handleUnsubscribe (message : Message) : M unit :=
  try_catch
    (await phoneNumber := getPhoneNumber (author_id message) in
     if truthy phoneNumber then
       deletePhoneNumber (author_id message);;
       authorSend unsubscribe_done;;
       note (LoggerInfo ("Phone number " +:+ default EmptyString phoneNumber
                         +:+ " for user " +:+ author_id message
                         +:+ " has been unsubscribed."))
     else authorSend not_subscribed)
    (fun error =>
       note (LoggerError "Error handling !unsubscribe command:" error);;
       authorSend unsubscribe_failed).

(** [client.on("messageCreate", async (message) => ...)] *)
Definition messageCreate (message : Message) : M unit :=
  if author_bot message then ret tt else
  let msg := content message in
  (if startsWith msg "!inspire" then handleInspire message else ret tt);;
  (if startsWith msg "!subscribe" then handleSubscribe message else ret tt);;
  (if startsWith msg "!unsubscribe" then handleUnsubscribe message else ret tt).

End Bot.

(** ** Reading the log *)

Definition sms_published (e : Entry) : option (string * string) :=
  match call e with
  | SnsPublish phoneNumber message => Some (phoneNumber, message)
  | _ => None
  end.

(** The [(PhoneNumber, Message)] of every Publish command sent, in order. *)
Definition publishes (l : list Entry) : list (string * string) :=
  omap sms_published l.

Definition is_sns (c : Call) : bool :=
  match c with
  | SnsPublish _ _ | SnsSubscribe _ _ _ => true
  | _ => false
  end.

Definition is_put (c : Call) : bool :=
  match c with DdbPut _ _ => true | _ => false end.

Definition is_delete (c : Call) : bool :=
  match c with DdbDelete _ _ => true | _ => false end.

Definition is_get (c : Call) : bool :=
  match c with DdbGet _ _ => true | _ => false end.

Definition is_channel_send (c : Call) : bool :=
  match c with ChannelSend _ => true | _ => false end.

(** The calls of a log that satisfy [p]. *)
Definition calls (p : Call -> bool) (l : list Entry) : list Call :=
  List.filter p (map call l).

Definition fulfilled (e : Entry) : bool :=
  match outcome e with Fulfilled => true | Rejected _ => false end.

(** The quote [getQuote] builds from the body axios returned. *)
Definition quote_of (data : string * string) : string :=
  fst data +:+ " -" +:+ snd data.

(** ** The phone state of the specification *)

Inductive PhoneState :=
| Unset
| Pending (phoneNumber : string)
| Confirmed (phoneNumber : string).

Fixpoint strip_prefix (p s : string) {struct p} : option string :=
  match p, s with
  | EmptyString, _ => Some s
  | String a p', String b s' => if Ascii.eqb a b then strip_prefix p' s' else None
  | String _ _, EmptyString => None
  end.

(** A stored value that carries the marker is [Pending], any other stored
    value is [Confirmed], and no item at all is [Unset]. *)
Definition phoneState (record : option Item) : PhoneState :=
  match record with
  | None => Unset
  | Some item =>
      match strip_prefix pending_marker (PhoneNumber item) with
      | Some phoneNumber => Pending phoneNumber
      | None => Confirmed (PhoneNumber item)
      end
  end.

Definition is_pending (item : Item) : bool :=
  startsWith (PhoneNumber item) pending_marker.

(** The first message of [author] that arrives before [time] has passed. *)
Definition reply_in_time (author : string) (time : Z) (inbox : list Incoming)
    : option Incoming :=
  List.find (fun m => bool_decide (from m = author) && (at_ms m <? time)%Z) inbox.

(** ** Runs of the bot: one environment and one message per event *)

Fixpoint run (cfg : ProcessEnv) (events : list (Env * Message))
    (t : gmap string Item) : gmap string Item * list Entry :=
  match events with
  | [] => (t, [])
  | (env, message) :: rest =>
      let o := messageCreate env cfg message t in
      let r := run cfg rest (tbl o) in
      (fst r, (log o ++ snd r)%list)
  end.

(** ** Concrete scenarios *)

Definition bot_config : ProcessEnv :=
  mkProcessEnv "arn:aws:sns:us-east-1:000000000000:quotes" "PhoneNumbers".

(** Every call succeeds and user [U] answers the prompt after 1.5 s. *)
Definition obliging : Env := {|
  axios_get := fun _ => Some ("Stay hungry", "Anon");
  channel_send := fun _ => true;
  author_send := fun _ => true;
  author_createDM := true;
  dm_send := fun _ => true;
  dm_inbox := [mkIncoming "U" "  +15551234567 " 1500];
  sns_publish := fun _ _ => Some "message-1";
  sns_subscribe := fun _ _ _ => Some "pending confirmation";
  ddb_up := fun _ => true
|}.

(** As [obliging], but the only answer of [U] comes when the timer has
    fired; an earlier message is from somebody else. *)
Definition unanswered : Env := {|
  axios_get := axios_get obliging;
  channel_send := channel_send obliging;
  author_send := author_send obliging;
  author_createDM := true;
  dm_send := dm_send obliging;
  dm_inbox := [mkIncoming "V" "+15550000000" 10; mkIncoming "U" "+15551234567" 60000];
  sns_publish := sns_publish obliging;
  sns_subscribe := sns_subscribe obliging;
  ddb_up := ddb_up obliging
|}.

(** As [obliging], but SNS rejects the Subscribe command. *)
Definition sns_rejecting : Env := {|
  axios_get := axios_get obliging;
  channel_send := channel_send obliging;
  author_send := author_send obliging;
  author_createDM := true;
  dm_send := dm_send obliging;
  dm_inbox := dm_inbox obliging;
  sns_publish := sns_publish obliging;
  sns_subscribe := fun _ _ _ => None;
  ddb_up := ddb_up obliging
|}.

(** As [obliging], but the quote service is down. *)
Definition quoteless : Env := {|
  axios_get := fun _ => None;
  channel_send := channel_send obliging;
  author_send := author_send obliging;
  author_createDM := true;
  dm_send := dm_send obliging;
  dm_inbox := dm_inbox obliging;
  sns_publish := sns_publish obliging;
  sns_subscribe := sns_subscribe obliging;
  ddb_up := ddb_up obliging
|}.

Definition from_U (line : string) : Message := mkMessage "U" false line.

Definition no_record : gmap string Item := ∅.
Definition pending_record : gmap string Item :=
  {[ "U" := mkItem "U" "pending:+15551234567" ]}.
Definition confirmed_record : gmap string Item :=
  {[ "U" := mkItem "U" "+15551234567" ]}.
(** An item whose [PhoneNumber] attribute is the empty string. *)
Definition blank_record : gmap string Item :=
  {[ "U" := mkItem "U" EmptyString ]}.

(** ** Unfolding the monad *)

Ltac unfold_bot :=
  unfold messageCreate, handleInspire, handleSubscribe, handleUnsubscribe,
    getQuote, publishMessage, subscribePhoneNumberToTopic, getPhoneNumber,
    savePhoneNumber, deletePhoneNumber, channelSend, authorSend, createDM,
    dmSend, awaitMessages, first_content, ddb_get, ddb_put, ddb_delete,
    note, perform, try_catch, bind, ret, throw, guard in *.

Ltac split_call :=
  match goal with
  | |- context [match axios_get ?e ?u with _ => _ end] =>
      destruct (axios_get e u) as [[? ?]|] eqn:?
  | |- context [match sns_publish ?e ?p ?m with _ => _ end] =>
      destruct (sns_publish e p m) eqn:?
  | |- context [match sns_subscribe ?e ?p ?a ?n with _ => _ end] =>
      destruct (sns_subscribe e p a n) eqn:?
  | |- context [match collect ?f ?n ?z ?i with _ => _ end] =>
      destruct (collect f n z i) as [[|? ?]|] eqn:?
  | |- context [if ddb_up ?e ?c then _ else _] => destruct (ddb_up e c) eqn:?
  | |- context [if channel_send ?e ?c then _ else _] =>
      destruct (channel_send e c) eqn:?
  | |- context [if author_send ?e ?c then _ else _] =>
      destruct (author_send e c) eqn:?
  | |- context [if dm_send ?e ?c then _ else _] => destruct (dm_send e c) eqn:?
  | |- context [if author_createDM ?e then _ else _] =>
      destruct (author_createDM e) eqn:?
  end.

Ltac red_out := cbn [res tbl log call outcome app fst snd default truthy].

Ltac walk := unfold_bot; red_out; repeat (split_call; red_out).

(** ** Properties of the flows and of the table *)

(** The inspire flow read as skipping every author without a confirmed
    number: no Publish command and no acknowledgment whenever the author's
    record is [Unset] or [Pending]. *)
Definition inspire_silent_unless_confirmed : Prop :=
  forall env cfg message t,
    (phoneState (t !! author_id message) = Unset \/
     exists n, phoneState (t !! author_id message) = Pending n) ->
    let o := handleInspire env cfg message t in
    publishes (log o) = [] /\ ~ In (AuthorSend inspire_ack) (map call (log o)).

(** The inspire flow read as serving every confirmed number: each run
    without a rejected call, for an author with a [Confirmed] record,
    publishes once to the stored number. *)
Definition inspire_publishes_when_confirmed : Prop :=
  forall env cfg message t n,
    phoneState (t !! author_id message) = Confirmed n ->
    let o := handleInspire env cfg message t in
    forallb fulfilled (log o) = true ->
    exists quote, publishes (log o) = [(n, quote)].

(** The unsubscribe flow read as removing every stored record: whenever an
    item is stored for the author and DynamoDB answers, the item is deleted
    and the confirmation is sent. *)
Definition unsubscribe_deletes_every_record : Prop :=
  forall env cfg message t item,
    t !! author_id message = Some item ->
    ddb_up env (DdbGet (DYNAMODB_TABLE cfg) (author_id message)) = true ->
    ddb_up env (DdbDelete (DYNAMODB_TABLE cfg) (author_id message)) = true ->
    let o := handleUnsubscribe env cfg message t in
    tbl o !! author_id message = None /\
    In (AuthorSend unsubscribe_done) (map call (log o)).

(** Every Put command of a log carries an item with the marker. *)
Definition writes_pending_only (l : list Entry) : Prop :=
  forall tableName item,
    In (DdbPut tableName item) (map call l) -> is_pending item = true.

(** A record of [t'] that carries no marker stood in [t] already, with the
    same value. *)
Definition confirms_nothing (t t' : gmap string Item) : Prop :=
  forall userId n,
    phoneState (t' !! userId) = Confirmed n -> t !! userId = t' !! userId.

(** Finds the position of an entry in a log that is known: splits
    [H : log = before ++ entry :: after] into one case per position. *)
Ltac locate before H :=
  repeat (destruct before as [|? before];
          [ cbn [app] in H; first [discriminate H | injection H as <- <-]
          | cbn [app] in H; first [discriminate H | injection H as <- H] ]).

(** ** Loading the secrets and starting the bot *)

(** [process.env]: a variable that is not set reads as [undefined]. *)
Abbreviation ProcessVars := (gmap string string).

Inductive BootError :=
| SecretsUnavailable   (* the GetSecretValue command was rejected *)
| SecretUnreadable.    (* JSON.parse threw, or the parsed value was null *)

(** What the start-up sequence does outside the process, in order. *)
Inductive BootCall :=
| GetSecretValue (region : option string) (SecretId : string)
| BootConsoleError (label : string) (error : BootError)
| NewSNSClient (region : option string)
| NewDynamoDBClient (region : option string)
| ClientLogin (token : option string).

(** The outside world at start-up.  [secret_value] is the answer to the
    GetSecretValue command: [None] when it is rejected, otherwise the
    [SecretString] of the response, if it has one.  [JSON_parse] stands for
    [JSON.parse] followed by property reads: [None] when it throws or yields
    [null], otherwise the properties of the parsed value, each as the string
    [process.env] would store for it; a property that is missing reads as
    [undefined]. *)
Record SecretsManager := mkSecretsManager {
  secret_value : option (option string);
  JSON_parse : string -> option (gmap string string)
}.

Record BootOut := mkBootOut {
  rejected : option BootError;
  vars : ProcessVars;
  boot_log : list BootCall
}.

(** [process.env.NAME = value]: the value is stored as a string, so
    [undefined] is stored as the text "undefined". *)
Definition assign (name : string) (value : option string) (env : ProcessVars)
    : ProcessVars :=
  <[name := default "undefined" value]> env.

Definition getSecrets (aws : SecretsManager) (env : ProcessVars) : BootOut :=
  let command := GetSecretValue (env !! "AWS_REGION") "discord-bot-secrets" in
  match secret_value aws with
  | None =>
      mkBootOut (Some SecretsUnavailable) env
        [command; BootConsoleError "Error fetching secrets:" SecretsUnavailable]
  | Some data =>
      if truthy data then
        match JSON_parse aws (default EmptyString data) with
        | None =>
            mkBootOut (Some SecretUnreadable) env
              [command; BootConsoleError "Error fetching secrets:" SecretUnreadable]
        | Some secrets =>
            let env1 := assign "DISCORD_TOKEN" (secrets !! "DISCORD_TOKEN") env in
            let env2 := assign "AWS_REGION" (secrets !! "AWS_REGION") env1 in
            let env3 := assign "TOPIC_ARN" (secrets !! "TOPIC_ARN") env2 in
            let env4 := assign "DYNAMODB_TABLE" (secrets !! "DYNAMODB_TABLE") env3 in
            mkBootOut None env4 [command]
        end
      else mkBootOut None env [command]
  end.

(** [getSecrets().then(() => { ... client.login(...) }).catch(...)]: of the
    body of [then], the construction of the two AWS clients and the login are
    recorded. *)
Definition start (aws : SecretsManager) (env : ProcessVars) : BootOut :=
  let loaded := getSecrets aws env in
  match rejected loaded with
  | None =>
      mkBootOut None (vars loaded)
        (boot_log loaded ++
         [NewSNSClient (vars loaded !! "AWS_REGION");
          NewDynamoDBClient (vars loaded !! "AWS_REGION");
          ClientLogin (vars loaded !! "DISCORD_TOKEN")])
  | Some err =>
      mkBootOut None (vars loaded)
        (boot_log loaded ++
         [BootConsoleError "Failed to load secrets and start the bot:" err])
  end.

(** The configuration the handler reads, when both variables are set. *)
Definition config_of (env : ProcessVars) : option ProcessEnv :=
  match env !! "TOPIC_ARN", env !! "DYNAMODB_TABLE" with
  | Some arn, Some table => Some (mkProcessEnv arn table)
  | _, _ => None
  end.

Definition secret_names : list string :=
  ["DISCORD_TOKEN"; "AWS_REGION"; "TOPIC_ARN"; "DYNAMODB_TABLE"].

Definition is_login (c : BootCall) : bool :=
  match c with ClientLogin _ => true | _ => false end.

Definition is_new_client (c : BootCall) : bool :=
  match c with NewSNSClient _ | NewDynamoDBClient _ => true | _ => false end.

(** ** Further vocabulary for the flows *)

Fixpoint last_char (s : string) : option ascii :=
  match s with
  | EmptyString => None
  | String c EmptyString => Some c
  | String _ rest => last_char rest
  end.

Definition first_char (s : string) : option ascii :=
  match s with
  | EmptyString => None
  | String c _ => Some c
  end.

Fixpoint all_space (s : string) : bool :=
  match s with
  | EmptyString => true
  | String c rest => isWhiteSpace c && all_space rest
  end.

Definition is_subscribe (c : Call) : bool :=
  match c with SnsSubscribe _ _ _ => true | _ => false end.

(** A command that changes something outside: a write to the table or a
    subscription at SNS. *)
Definition is_mutation (c : Call) : bool :=
  is_put c || is_delete c || is_subscribe c.

Definition no_command (msg : string) : bool :=
  negb (startsWith msg "!inspire") && negb (startsWith msg "!subscribe")
  && negb (startsWith msg "!unsubscribe").

(** As [obliging], but SNS rejects the Publish command. *)
Definition sms_rejecting : Env := {|
  axios_get := axios_get obliging;
  channel_send := channel_send obliging;
  author_send := author_send obliging;
  author_createDM := true;
  dm_send := dm_send obliging;
  dm_inbox := dm_inbox obliging;
  sns_publish := fun _ _ => None;
  sns_subscribe := sns_subscribe obliging;
  ddb_up := ddb_up obliging
|}.

(** As [obliging], but DynamoDB rejects every Delete and Put command. *)
Definition read_only_store : Env := {|
  axios_get := axios_get obliging;
  channel_send := channel_send obliging;
  author_send := author_send obliging;
  author_createDM := true;
  dm_send := dm_send obliging;
  dm_inbox := dm_inbox obliging;
  sns_publish := sns_publish obliging;
  sns_subscribe := sns_subscribe obliging;
  ddb_up := is_get
|}.

(** As [quoteless], and no direct message reaches the author. *)
Definition unreachable_author : Env := {|
  axios_get := fun _ => None;
  channel_send := channel_send obliging;
  author_send := fun _ => false;
  author_createDM := true;
  dm_send := dm_send obliging;
  dm_inbox := dm_inbox obliging;
  sns_publish := sns_publish obliging;
  sns_subscribe := sns_subscribe obliging;
  ddb_up := ddb_up obliging
|}.

(** As [obliging], but the confirmation of an unsubscription is not
    delivered. *)
Definition deaf_to_confirmation : Env := {|
  axios_get := axios_get obliging;
  channel_send := channel_send obliging;
  author_send := fun body => negb (String.eqb body unsubscribe_done);
  author_createDM := true;
  dm_send := dm_send obliging;
  dm_inbox := dm_inbox obliging;
  sns_publish := sns_publish obliging;
  sns_subscribe := sns_subscribe obliging;
  ddb_up := ddb_up obliging
|}.

(** As [obliging], but the answer of [U] is blank. *)
Definition blank_reply : Env := {|
  axios_get := axios_get obliging;
  channel_send := channel_send obliging;
  author_send := author_send obliging;
  author_createDM := true;
  dm_send := dm_send obliging;
  dm_inbox := [mkIncoming "U" "   " 900];
  sns_publish := sns_publish obliging;
  sns_subscribe := sns_subscribe obliging;
  ddb_up := ddb_up obliging
|}.

(** A secret with three of the four properties. *)
Definition stored_secret : SecretsManager := {|
  secret_value := Some (Some "{...}");
  JSON_parse := fun _ =>
    Some (list_to_map [("DISCORD_TOKEN", "token-1"); ("AWS_REGION", "eu-west-1");
                       ("DYNAMODB_TABLE", "PhoneNumbers")])
|}.

Definition secrets_down : SecretsManager := {|
  secret_value := None;
  JSON_parse := fun _ => None
|}.

Definition shell_vars : ProcessVars :=
  {[ "AWS_REGION" := "us-east-1"; "HOME" := "/home/bot" ]}.

(** The secret exists but the response carries no [SecretString]. *)
Definition binary_secret : SecretsManager := {|
  secret_value := Some None;
  JSON_parse := fun _ => None
|}.

(** The handler rejected because its last call, the report of a failure to
    the author, was not delivered. *)
Definition lost_report (env : Env) (o : Out unit) (body : string) : Prop :=
  author_send env body = false /\
  last (log o) = Some (mkEntry (AuthorSend body) (Rejected GatewayError)).

(** ** Facts about the JavaScript helpers *)

Lemma truthy_spec v : truthy v = true <-> exists c s, v = Some (String c s).
Proof.
  split.
  - destruct v as [[|c s]|]; cbn; try discriminate. eauto.
  - intros (c & s & ->). reflexivity.
Qed.

Example trim_reply : trim "  +15551234567 " = "+15551234567".
Proof. reflexivity. Qed.

Example trim_keeps_inner_space : trim (String "009" "+1 555 0100") = "+1 555 0100".
Proof. reflexivity. Qed.

Example unsubscribe_is_not_subscribe :
  startsWith "!unsubscribe" "!subscribe" = false /\
  startsWith "!subscribe me" "!subscribe" = true.
Proof. split; reflexivity. Qed.

Lemma trimStart_idempotent s : trimStart (trimStart s) = trimStart s.
Proof.
  induction s as [|c s IH]; cbn; [reflexivity|].
  destruct (isWhiteSpace c) eqn:Hc; [exact IH|]. cbn. now rewrite Hc.
Qed.

(** What [trim] returns does not begin with white space. *)
Lemma trim_no_leading_space s c rest :
  trim s = String c rest -> isWhiteSpace c = false.
Proof.
  unfold trim. induction s as [|a s IH]; cbn; [discriminate|].
  destruct (isWhiteSpace a) eqn:Ha; [exact IH|].
  cbn. destruct (trimEnd s); rewrite ?Ha; congruence.
Qed.

Lemma startsWith_append p s : startsWith (p +:+ s) p = true.
Proof.
  induction p as [|a p IH]; [reflexivity|].
  change (Ascii.eqb a a && startsWith (p +:+ s) p = true).
  now rewrite Ascii.eqb_refl, IH.
Qed.

Lemma strip_prefix_append p s : strip_prefix p (p +:+ s) = Some s.
Proof.
  induction p as [|a p IH]; [reflexivity|].
  change ((if Ascii.eqb a a then strip_prefix p (p +:+ s) else None) = Some s).
  now rewrite Ascii.eqb_refl.
Qed.

Lemma strip_prefix_startsWith p s :
  startsWith s p = true <-> is_Some (strip_prefix p s).
Proof.
  revert s. induction p as [|a p IH]; intros s; cbn.
  - split; eauto.
  - destruct s as [|b s]; cbn.
    + split; [discriminate|]. intros [? ?]; discriminate.
    + destruct (Ascii.eqb a b); cbn; [apply IH|].
      split; [discriminate|]. intros [? ?]; discriminate.
Qed.

(** A stored value is [Pending] exactly when it carries the marker. *)
Lemma phoneState_pending item :
  is_pending item = true <-> exists n, phoneState (Some item) = Pending n.
Proof.
  unfold is_pending, phoneState. rewrite strip_prefix_startsWith.
  destruct (strip_prefix pending_marker (PhoneNumber item)) as [n|].
  - split; eauto.
  - split; [intros [? ?]; discriminate | intros [? ?]; discriminate].
Qed.

Lemma phoneState_confirmed item n :
  phoneState (Some item) = Confirmed n ->
  PhoneNumber item = n /\ is_pending item = false.
Proof.
  intros H. destruct (is_pending item) eqn:Hp.
  - apply phoneState_pending in Hp as [k Hk]. congruence.
  - unfold phoneState in H.
    destruct (strip_prefix pending_marker (PhoneNumber item)); now inversion H.
Qed.

Lemma saved_item_is_pending userId phoneNumber :
  is_pending (mkItem userId (pending_marker +:+ phoneNumber)) = true /\
  phoneState (Some (mkItem userId (pending_marker +:+ phoneNumber)))
  = Pending phoneNumber.
Proof.
  split; [apply startsWith_append|].
  unfold phoneState. cbn [PhoneNumber]. now rewrite strip_prefix_append.
Qed.

(** ** The collector of [awaitMessages] with [max: 1] *)

Lemma collect_one filter time inbox :
  collect filter 1 time inbox =
  option_map (fun m => [m])
    (List.find (fun m => filter m && (at_ms m <? time)%Z) inbox).
Proof.
  unfold collect. induction inbox as [|m inbox IH]; cbn; [reflexivity|].
  destruct (filter m && (at_ms m <? time)%Z); cbn; [reflexivity|exact IH].
Qed.

Lemma collect_reply author time inbox m :
  reply_in_time author time inbox = Some m ->
  collect (fun response => bool_decide (from response = author)) 1 time inbox
  = Some [m].
Proof.
  intros H. rewrite collect_one. unfold reply_in_time in H. now rewrite H.
Qed.

Lemma no_reply_in_time author time inbox :
  Forall (fun m => from m = author -> (time <= at_ms m)%Z) inbox ->
  reply_in_time author time inbox = None.
Proof.
  unfold reply_in_time. induction 1 as [|m inbox Hm _ IH]; cbn; [reflexivity|].
  destruct (bool_decide_reflect (from m = author)) as [Hfrom|]; cbn; [|exact IH].
  apply Hm in Hfrom. destruct (Z.ltb_spec (at_ms m) time); [lia|exact IH].
Qed.

Lemma collect_timeout author time inbox :
  Forall (fun m => from m = author -> (time <= at_ms m)%Z) inbox ->
  collect (fun response => bool_decide (from response = author)) 1 time inbox
  = None.
Proof.
  intros H. rewrite collect_one. apply no_reply_in_time in H.
  unfold reply_in_time in H. now rewrite H.
Qed.

(** ** The router *)

Lemma messageCreate_bot env cfg message t :
  author_bot message = true ->
  messageCreate env cfg message t = mkOut (Return tt) t [].
Proof. intros H. unfold messageCreate. now rewrite H. Qed.

Lemma inspire_is_no_other_command msg :
  startsWith msg "!inspire" = true ->
  startsWith msg "!subscribe" = false /\ startsWith msg "!unsubscribe" = false.
Proof.
  destruct msg as [|a [|b msg]]; cbn [startsWith]; try discriminate.
  - rewrite andb_false_r. discriminate.
  - destruct (Ascii.eqb "!" a); [|discriminate].
    destruct (Ascii.eqb_spec "i" b) as [<-|]; [|discriminate]. auto.
Qed.

Lemma subscribe_is_no_other_command msg :
  startsWith msg "!subscribe" = true ->
  startsWith msg "!inspire" = false /\ startsWith msg "!unsubscribe" = false.
Proof.
  destruct msg as [|a [|b msg]]; cbn [startsWith]; try discriminate.
  - rewrite andb_false_r. discriminate.
  - destruct (Ascii.eqb "!" a); [|discriminate].
    destruct (Ascii.eqb_spec "s" b) as [<-|]; [|discriminate]. auto.
Qed.

Lemma unsubscribe_is_no_other_command msg :
  startsWith msg "!unsubscribe" = true ->
  startsWith msg "!inspire" = false /\ startsWith msg "!subscribe" = false.
Proof.
  destruct msg as [|a [|b msg]]; cbn [startsWith]; try discriminate.
  - rewrite andb_false_r. discriminate.
  - destruct (Ascii.eqb "!" a); [|discriminate].
    destruct (Ascii.eqb_spec "u" b) as [<-|]; [|discriminate]. auto.
Qed.

Lemma bind_ret_r {A} (m : M A) t : bind m ret t = m t.
Proof.
  unfold bind, ret. destruct (m t) as [[a|e] t1 l1]; [|reflexivity].
  now rewrite app_nil_r.
Qed.

Lemma bind_ret_l {A B} (a : A) (k : A -> M B) t : bind (ret a) k t = k a t.
Proof. unfold bind, ret. now destruct (k a t). Qed.

Lemma messageCreate_inspire env cfg message t :
  author_bot message = false ->
  startsWith (content message) "!inspire" = true ->
  messageCreate env cfg message t = handleInspire env cfg message t.
Proof.
  intros Hbot Hcmd. unfold messageCreate. rewrite Hbot, Hcmd.
  destruct (inspire_is_no_other_command _ Hcmd) as [-> ->].
  unfold bind, ret.
  destruct (handleInspire env cfg message t) as [[[]|e] t1 l1]; [|reflexivity].
  now rewrite !app_nil_r.
Qed.

Lemma messageCreate_subscribe env cfg message t :
  author_bot message = false ->
  startsWith (content message) "!subscribe" = true ->
  messageCreate env cfg message t = handleSubscribe env cfg message t.
Proof.
  intros Hbot Hcmd. unfold messageCreate. rewrite Hbot, Hcmd.
  destruct (subscribe_is_no_other_command _ Hcmd) as [-> ->].
  unfold bind, ret.
  destruct (handleSubscribe env cfg message t) as [[[]|e] t1 l1]; [|reflexivity].
  now rewrite !app_nil_r.
Qed.

Lemma messageCreate_unsubscribe env cfg message t :
  author_bot message = false ->
  startsWith (content message) "!unsubscribe" = true ->
  messageCreate env cfg message t = handleUnsubscribe env cfg message t.
Proof.
  intros Hbot Hcmd. unfold messageCreate. rewrite Hbot, Hcmd.
  destruct (unsubscribe_is_no_other_command _ Hcmd) as [-> ->].
  unfold bind, ret.
  destruct (handleUnsubscribe env cfg message t) as [[[]|e] t1 l1]; reflexivity.
Qed.

(** ** The inspire flow *)

(** C8.  When fetching the quote fails, the handler logs the failure, sends
    the author the generic failure message and stops: nothing is posted to
    the channel, no record is looked up and nothing is published. *)
Theorem inspire_quote_failure env cfg message t :
  axios_get env zenquotes = None ->
  let o := handleInspire env cfg message t in
  map call (log o) =
    [AxiosGet zenquotes;
     LoggerError "Error fetching quote:" SourceUnavailable;
     LoggerError "Error handling !inspire command:" SourceUnavailable;
     AuthorSend inspire_failed] /\
  calls is_channel_send (log o) = [] /\
  calls is_get (log o) = [] /\
  publishes (log o) = [] /\
  tbl o = t.
Proof.
  intros H. cbv zeta. unfold_bot. rewrite H. red_out.
  destruct (author_send env inspire_failed); red_out; repeat split.
Qed.

Lemma inspire_quote_failure_witness :
  axios_get quoteless zenquotes = None /\
  map call (log (handleInspire quoteless bot_config (from_U "!inspire")
                   confirmed_record)) =
    [AxiosGet zenquotes;
     LoggerError "Error fetching quote:" SourceUnavailable;
     LoggerError "Error handling !inspire command:" SourceUnavailable;
     AuthorSend inspire_failed].
Proof.
  split; [reflexivity|].
  apply (inspire_quote_failure quoteless bot_config (from_U "!inspire")
           confirmed_record).
  reflexivity.
Defined.

(** C1.  For a [Pending] record the handler does not do what C1 states.
    The subscribe branch saves the reply under the marker, as a pending
    subscription, but the marker is never read: the guard [if (phoneNumber)]
    of the inspire branch only asks whether a value is stored, so the stored
    value, marker included, is handed to [publishMessage] as the phone number
    and the acknowledgment follows, where no Publish command and no
    acknowledgment should be sent. *)
Lemma inspire_publishes_to_pending_record :
  phoneState (pending_record !! "U") = Pending "+15551234567" /\
  publishes (log (handleInspire obliging bot_config (from_U "!inspire")
                    pending_record))
  = [("pending:+15551234567", "Stay hungry -Anon")] /\
  In (AuthorSend inspire_ack)
     (map call (log (handleInspire obliging bot_config (from_U "!inspire")
                       pending_record))) /\
  ~ inspire_silent_unless_confirmed.
Proof.
  split; [reflexivity|]. split; [reflexivity|]. split.
  - vm_compute. tauto.
  - intros claim.
    destruct (claim obliging bot_config (from_U "!inspire") pending_record)
      as [Hnone _]; [right; eexists; reflexivity|].
    vm_compute in Hnone. discriminate.
Qed.

(** The [Unset] half of C1, which the handler keeps.  When the author has no
    record, the handler sends no Publish command and no acknowledgment,
    whatever the outside world answers. *)
Theorem inspire_unset_is_silent env cfg message t :
  phoneState (t !! author_id message) = Unset ->
  let o := handleInspire env cfg message t in
  publishes (log o) = [] /\ ~ In (AuthorSend inspire_ack) (map call (log o)).
Proof.
  intros H. assert (Hnone : t !! author_id message = None).
  { destruct (t !! author_id message) as [item|]; [|reflexivity].
    unfold phoneState in H. now destruct (strip_prefix _ _). }
  cbv zeta. walk; rewrite ?Hnone; red_out.
  all: (split; [reflexivity|]); cbn [map call In];
    unfold inspire_ack, inspire_failed; intuition congruence.
Qed.

Lemma inspire_unset_is_silent_witness :
  phoneState (no_record !! "U") = Unset /\
  publishes (log (handleInspire obliging bot_config (from_U "!inspire")
                    no_record)) = [].
Proof.
  split; [reflexivity|].
  apply (inspire_unset_is_silent obliging bot_config (from_U "!inspire")
           no_record).
  reflexivity.
Defined.

(** C7 fails for a record whose stored phone number is the empty string:
    it carries no marker, so it is [Confirmed], but it is falsy and the
    handler skips the branch that publishes. *)
Lemma inspire_skips_blank_record :
  phoneState (blank_record !! "U") = Confirmed EmptyString /\
  map call (log (handleInspire obliging bot_config (from_U "!inspire")
                   blank_record))
  = [AxiosGet zenquotes; ChannelSend "Stay hungry -Anon";
     DdbGet "PhoneNumbers" "U"] /\
  forallb fulfilled (log (handleInspire obliging bot_config (from_U "!inspire")
                            blank_record)) = true /\
  ~ inspire_publishes_when_confirmed.
Proof.
  split; [reflexivity|]. split; [reflexivity|]. split; [reflexivity|].
  intros claim.
  destruct (claim obliging bot_config (from_U "!inspire") blank_record
              EmptyString) as [quote Hq]; [reflexivity..|].
  vm_compute in Hq. discriminate.
Qed.

(** The guard of the inspire branch asks only whether a non-empty value is
    stored.  For any such value, with or without the marker, a run in which
    no call is rejected fetches the quote, posts it, reads the record, sends
    one Publish command to the stored value and acknowledges. *)
Lemma inspire_publishes_to_stored_value env cfg message t item :
  t !! author_id message = Some item ->
  PhoneNumber item <> EmptyString ->
  let o := handleInspire env cfg message t in
  let n := PhoneNumber item in
  forallb fulfilled (log o) = true ->
  exists data messageId,
    axios_get env zenquotes = Some data /\
    sns_publish env n (quote_of data) = Some messageId /\
    log o =
      map (fun c => mkEntry c Fulfilled)
        [AxiosGet zenquotes;
         ChannelSend (quote_of data);
         DdbGet (DYNAMODB_TABLE cfg) (author_id message);
         SnsPublish n (quote_of data);
         LoggerInfo ("Message published to phone number " +:+ n
                     +:+ " with message Id - " +:+ messageId);
         AuthorSend inspire_ack].
Proof.
  intros Hitem Hn.
  destruct item as [u [|c number]]; [now cbn in Hn|].
  cbv zeta. unfold_bot. red_out.
  destruct (axios_get env zenquotes) as [data|]; red_out;
    [|destruct (author_send env inspire_failed); discriminate].
  destruct (channel_send env _); red_out;
    [|destruct (author_send env inspire_failed); discriminate].
  destruct (ddb_up env _); red_out;
    [|destruct (author_send env inspire_failed); discriminate].
  rewrite Hitem. cbn [PhoneNumber truthy default]. red_out.
  destruct (sns_publish env _ _) as [messageId|] eqn:Hpub; red_out;
    [|destruct (author_send env inspire_failed); discriminate].
  destruct (author_send env inspire_ack); red_out;
    [|destruct (author_send env inspire_failed); discriminate].
  intros _. exists data, messageId. repeat split; assumption.
Qed.

(** C7, as far as it holds.  For an author with a [Confirmed] record whose
    phone number is not empty, a run in which no call is rejected consists
    of: the quote fetched, the quote posted to the channel, the record read,
    one Publish command to the stored number with the quote as message, the
    log line, and one acknowledgment to the author, in this order. *)
Theorem inspire_confirmed_publishes_once env cfg message t n :
  phoneState (t !! author_id message) = Confirmed n ->
  n <> EmptyString ->
  let o := handleInspire env cfg message t in
  forallb fulfilled (log o) = true ->
  exists data messageId,
    axios_get env zenquotes = Some data /\
    sns_publish env n (quote_of data) = Some messageId /\
    log o =
      map (fun c => mkEntry c Fulfilled)
        [AxiosGet zenquotes;
         ChannelSend (quote_of data);
         DdbGet (DYNAMODB_TABLE cfg) (author_id message);
         SnsPublish n (quote_of data);
         LoggerInfo ("Message published to phone number " +:+ n
                     +:+ " with message Id - " +:+ messageId);
         AuthorSend inspire_ack] /\
    publishes (log o) = [(n, quote_of data)] /\
    calls (fun c => bool_decide (c = AuthorSend inspire_ack)) (log o)
    = [AuthorSend inspire_ack].
Proof.
  intros Hstate Hn o Hok.
  destruct (t !! author_id message) as [item|] eqn:Hitem; [|discriminate].
  apply phoneState_confirmed in Hstate as [<- _].
  destruct (inspire_publishes_to_stored_value env cfg message t item Hitem Hn Hok)
    as (data & messageId & Hdata & Hpub & Hlog).
  exists data, messageId. subst o. rewrite Hlog.
  repeat split; assumption.
Qed.

Lemma inspire_confirmed_publishes_once_witness :
  publishes (log (handleInspire obliging bot_config (from_U "!inspire")
                    confirmed_record))
  = [("+15551234567", "Stay hungry -Anon")].
Proof.
  destruct (inspire_confirmed_publishes_once obliging bot_config
              (from_U "!inspire") confirmed_record "+15551234567")
    as (data & messageId & Hdata & _ & _ & Hpub & _);
    [reflexivity | discriminate | reflexivity |].
  injection Hdata as <-. exact Hpub.
Defined.

(** ** The subscribe flow *)

(** C2.  When a reply of the author arrives within the window and SNS
    accepts the Subscribe command, the only item the handler writes is
    [pending:] followed by the trimmed reply, under the author's id; a Put
    command appears in the log only after the fulfilled Subscribe command;
    and when no call of the run is rejected the table holds that item, a
    [Pending] record of the trimmed reply. *)
Theorem subscribe_persists_pending env cfg message t m arn :
  reply_in_time (author_id message) 60000 (dm_inbox env) = Some m ->
  sns_subscribe env "sms" (TOPIC_ARN cfg) (trim (text m)) = Some arn ->
  let o := handleSubscribe env cfg message t in
  let item := mkItem (author_id message) (pending_marker +:+ trim (text m)) in
  let subscribed :=
    mkEntry (SnsSubscribe "sms" (TOPIC_ARN cfg) (trim (text m))) Fulfilled in
  (forall before entry after,
     log o = (before ++ entry :: after)%list -> is_put (call entry) = true ->
     call entry = DdbPut (DYNAMODB_TABLE cfg) item /\ In subscribed before) /\
  (tbl o = t \/ tbl o = <[author_id message := item]> t) /\
  (forallb fulfilled (log o) = true ->
   tbl o = <[author_id message := item]> t /\
   phoneState (tbl o !! author_id message) = Pending (trim (text m))).
Proof.
  intros Hreply Hsub. apply collect_reply in Hreply. cbv zeta.
  unfold_bot. rewrite Hreply. red_out.
  destruct (author_createDM env); red_out;
  destruct (dm_send env subscribe_prompt); red_out;
  cbn [text]; rewrite ?Hsub; red_out;
  try destruct (dm_send env subscribe_thanks); red_out;
  try destruct (ddb_up env _); red_out;
  destruct (author_send env subscribe_failed); red_out.
  all: split;
    [ intros before entry after Hsplit Hput; locate before Hsplit;
      cbn in Hput; try discriminate; (split; [reflexivity|cbn; tauto])
    | split;
      [ auto
      | cbn [forallb fulfilled outcome andb]; try discriminate; intros _;
        (split; [reflexivity|]) ] ].
  all: cbn [UserId]; rewrite lookup_insert_eq; apply saved_item_is_pending.
Qed.

Lemma subscribe_persists_pending_witness :
  reply_in_time "U" 60000 (dm_inbox obliging)
  = Some (mkIncoming "U" "  +15551234567 " 1500) /\
  tbl (handleSubscribe obliging bot_config (from_U "!subscribe") confirmed_record)
  = <["U" := mkItem "U" "pending:+15551234567"]> confirmed_record.
Proof.
  split; [reflexivity|].
  apply (subscribe_persists_pending obliging bot_config (from_U "!subscribe")
           confirmed_record (mkIncoming "U" "  +15551234567 " 1500)
           "pending confirmation");
    reflexivity.
Defined.

(** A Put command is never sent without a fulfilled Subscribe command for
    the same number earlier in the same run, whatever the outside answers. *)
Lemma put_only_after_subscribe env cfg message t before entry after :
  log (handleSubscribe env cfg message t) = (before ++ entry :: after)%list ->
  is_put (call entry) = true ->
  exists endpoint,
    In (mkEntry (SnsSubscribe "sms" (TOPIC_ARN cfg) endpoint) Fulfilled) before /\
    call entry
    = DdbPut (DYNAMODB_TABLE cfg)
        (mkItem (author_id message) (pending_marker +:+ endpoint)).
Proof.
  revert before entry after. walk.
  all: intros before entry after Hsplit Hput; locate before Hsplit;
    cbn in Hput; try discriminate.
  all: eexists; split; [cbn; tauto|reflexivity].
Qed.

(** C3.  When SNS rejects the Subscribe command, the run is: the prompt, the
    reply, the rejected command, the two error log lines and the generic
    error message to the author.  No Put command is sent and the table is as
    before; the handler itself returns normally once the error message is
    delivered. *)
Theorem subscribe_rejected_writes_nothing env cfg message t
    protocol topicArn endpoint e :
  In (mkEntry (SnsSubscribe protocol topicArn endpoint) (Rejected e))
     (log (handleSubscribe env cfg message t)) ->
  let o := handleSubscribe env cfg message t in
  (exists sent,
     log o =
       [mkEntry CreateDM Fulfilled;
        mkEntry (DmSend subscribe_prompt) Fulfilled;
        mkEntry (AwaitMessages (author_id message) 1 60000) Fulfilled;
        mkEntry (SnsSubscribe "sms" (TOPIC_ARN cfg) endpoint) (Rejected e);
        mkEntry (ConsoleError "Error subscribing phone number:" e) Fulfilled;
        mkEntry (LoggerError "Error handling !subscribe command:" e) Fulfilled;
        mkEntry (AuthorSend subscribe_failed) sent] /\
     (sent = Fulfilled -> res o = Return tt)) /\
  calls is_put (log o) = [] /\
  tbl o = t.
Proof.
  cbv zeta. walk.
  all: cbn [In]; intros Hin; destruct_or?; simplify_eq; try contradiction.
  all: split; [eexists; split; [reflexivity|]|split; reflexivity].
  all: first [reflexivity | discriminate].
Qed.

Lemma subscribe_rejected_writes_nothing_witness :
  tbl (handleSubscribe sns_rejecting bot_config (from_U "!subscribe")
         confirmed_record) = confirmed_record /\
  calls is_put (log (handleSubscribe sns_rejecting bot_config
                       (from_U "!subscribe") confirmed_record)) = [].
Proof.
  destruct (subscribe_rejected_writes_nothing sns_rejecting bot_config
              (from_U "!subscribe") confirmed_record
              "sms" (TOPIC_ARN bot_config) "+15551234567" DeliveryRejected)
    as (_ & Hput & Htbl).
  - vm_compute. tauto.
  - split; assumption.
Defined.

(** C4.  When no message of the author arrives before the 60000 ms have
    passed, no Put command is sent, the table is as before and the author is
    sent the generic subscription error; if the prompt was delivered, the
    run is the prompt, the wait rejected with [Timeout], the error log line
    and the error message. *)
Theorem subscribe_timeout_writes_nothing env cfg message t :
  Forall (fun m => from m = author_id message -> (60000 <= at_ms m)%Z)
    (dm_inbox env) ->
  let o := handleSubscribe env cfg message t in
  calls is_put (log o) = [] /\
  tbl o = t /\
  In (AuthorSend subscribe_failed) (map call (log o)) /\
  (author_createDM env = true -> dm_send env subscribe_prompt = true ->
   exists sent,
     log o =
       [mkEntry CreateDM Fulfilled;
        mkEntry (DmSend subscribe_prompt) Fulfilled;
        mkEntry (AwaitMessages (author_id message) 1 60000) (Rejected Timeout);
        mkEntry (LoggerError "Error handling !subscribe command:" Timeout)
          Fulfilled;
        mkEntry (AuthorSend subscribe_failed) sent] /\
     (sent = Fulfilled -> res o = Return tt)).
Proof.
  intros Hlate. apply collect_timeout in Hlate. cbv zeta.
  unfold_bot. rewrite Hlate. red_out.
  destruct (author_createDM env); red_out;
    [destruct (dm_send env subscribe_prompt); red_out|];
    destruct (author_send env subscribe_failed); red_out.
  all: repeat split; cbn [map call In]; try tauto; try discriminate.
  all: intros _ _; eexists; split; [reflexivity|];
    first [reflexivity | discriminate].
Qed.

Lemma subscribe_timeout_writes_nothing_witness :
  Forall (fun m => from m = "U" -> (60000 <= at_ms m)%Z) (dm_inbox unanswered) /\
  calls is_put (log (handleSubscribe unanswered bot_config (from_U "!subscribe")
                       no_record)) = [] /\
  tbl (handleSubscribe unanswered bot_config (from_U "!subscribe") no_record)
  = no_record.
Proof.
  assert (Hlate : Forall (fun m => from m = "U" -> (60000 <= at_ms m)%Z)
                    (dm_inbox unanswered)).
  { repeat constructor; cbn; [discriminate|lia]. }
  split; [exact Hlate|].
  destruct (subscribe_timeout_writes_nothing unanswered bot_config
              (from_U "!subscribe") no_record Hlate) as (Hput & Htbl & _).
  split; assumption.
Defined.

(** ** The unsubscribe flow *)

(** C5.  When the author has no record, the handler sends no Delete command
    and leaves the table as it is, so the state stays [Unset]; once the
    lookup has answered, the next call is the "not subscribed" message to
    the author, and when that message is delivered nothing else happens. *)
Theorem unsubscribe_unset_reports_not_subscribed env cfg message t :
  t !! author_id message = None ->
  let o := handleUnsubscribe env cfg message t in
  calls is_delete (log o) = [] /\
  tbl o = t /\
  phoneState (tbl o !! author_id message) = Unset /\
  (ddb_up env (DdbGet (DYNAMODB_TABLE cfg) (author_id message)) = true ->
   exists sent rest,
     log o =
       mkEntry (DdbGet (DYNAMODB_TABLE cfg) (author_id message)) Fulfilled
       :: mkEntry (AuthorSend not_subscribed) sent :: rest /\
     (sent = Fulfilled -> rest = [] /\ res o = Return tt)).
Proof.
  intros Hnone. cbv zeta. unfold_bot. red_out.
  destruct (ddb_up env _); red_out; rewrite ?Hnone; red_out.
  - destruct (author_send env not_subscribed); red_out;
      [|destruct (author_send env unsubscribe_failed); red_out].
    all: rewrite ?Hnone; repeat split; intros _; eexists _, _;
      (split; [reflexivity|]); first [by auto | discriminate].
  - destruct (author_send env unsubscribe_failed); red_out.
    all: rewrite ?Hnone; repeat split; discriminate.
Qed.

Lemma unsubscribe_unset_reports_not_subscribed_witness :
  no_record !! "U" = None /\
  log (handleUnsubscribe obliging bot_config (from_U "!unsubscribe") no_record)
  = [mkEntry (DdbGet "PhoneNumbers" "U") Fulfilled;
     mkEntry (AuthorSend not_subscribed) Fulfilled].
Proof.
  split; [reflexivity|].
  destruct (unsubscribe_unset_reports_not_subscribed obliging bot_config
              (from_U "!unsubscribe") no_record) as (_ & _ & _ & Hlog);
    [reflexivity|].
  destruct Hlog as (sent & rest & Hlog & _); [reflexivity|].
  rewrite Hlog. injection Hlog as <- <-. reflexivity.
Defined.

(** C6 fails for a stored item whose phone number is the empty string: the
    guard [if (phoneNumber)] takes it for no number, the author is told they
    are not subscribed and the item stays in the table. *)
Lemma unsubscribe_keeps_blank_record :
  map call (log (handleUnsubscribe obliging bot_config (from_U "!unsubscribe")
                   blank_record))
  = [DdbGet "PhoneNumbers" "U"; AuthorSend not_subscribed] /\
  tbl (handleUnsubscribe obliging bot_config (from_U "!unsubscribe")
         blank_record) !! "U" = Some (mkItem "U" EmptyString) /\
  ~ unsubscribe_deletes_every_record.
Proof.
  split; [reflexivity|]. split; [reflexivity|].
  intros claim.
  destruct (claim obliging bot_config (from_U "!unsubscribe") blank_record
              (mkItem "U" EmptyString)) as [Hgone _]; [reflexivity..|].
  vm_compute in Hgone. discriminate.
Qed.

(** C6, as far as it holds.  When an item with a non-empty phone number is
    stored for the author, whether [Pending] or [Confirmed], and DynamoDB
    answers the lookup and the delete, the run starts with the lookup, the
    Delete command and then the confirmation to the author; the item is gone
    from the table and the state is [Unset]. *)
Theorem unsubscribe_deletes_then_confirms env cfg message t item :
  t !! author_id message = Some item ->
  PhoneNumber item <> EmptyString ->
  ddb_up env (DdbGet (DYNAMODB_TABLE cfg) (author_id message)) = true ->
  ddb_up env (DdbDelete (DYNAMODB_TABLE cfg) (author_id message)) = true ->
  let o := handleUnsubscribe env cfg message t in
  (exists sent rest,
     log o =
       mkEntry (DdbGet (DYNAMODB_TABLE cfg) (author_id message)) Fulfilled
       :: mkEntry (DdbDelete (DYNAMODB_TABLE cfg) (author_id message)) Fulfilled
       :: mkEntry (AuthorSend unsubscribe_done) sent :: rest) /\
  tbl o = delete (author_id message) t /\
  phoneState (tbl o !! author_id message) = Unset.
Proof.
  intros Hitem Hnumber Hget Hdelete. cbv zeta.
  destruct item as [u [|c number]]; [now cbn in Hnumber|].
  unfold_bot. rewrite Hget, Hitem. cbn [PhoneNumber]. red_out.
  rewrite Hdelete. red_out.
  destruct (author_send env unsubscribe_done); red_out;
    [|destruct (author_send env unsubscribe_failed); red_out].
  all: rewrite lookup_delete_eq; repeat split; eauto.
Qed.

Lemma unsubscribe_deletes_then_confirms_witness :
  pending_record !! "U" = Some (mkItem "U" "pending:+15551234567") /\
  tbl (handleUnsubscribe obliging bot_config (from_U "!unsubscribe")
         pending_record) = delete "U" pending_record.
Proof.
  split; [reflexivity|].
  apply (unsubscribe_deletes_then_confirms obliging bot_config
           (from_U "!unsubscribe") pending_record
           (mkItem "U" "pending:+15551234567"));
    [reflexivity | discriminate | reflexivity | reflexivity].
Defined.

(** The unsubscribe branch either leaves the table alone or removes the
    author's item. *)
Lemma handleUnsubscribe_table env cfg message t :
  tbl (handleUnsubscribe env cfg message t) = t \/
  tbl (handleUnsubscribe env cfg message t) = delete (author_id message) t.
Proof.
  unfold_bot. red_out.
  destruct (ddb_up env (DdbGet _ _)); red_out.
  - destruct (t !! author_id message) as [[u [|c number]]|];
      cbn [PhoneNumber]; red_out; repeat (split_call; red_out); auto.
  - destruct (author_send env unsubscribe_failed); red_out; auto.
Qed.

(** C10.  No run of the unsubscribe branch sends a command to SNS, neither
    Publish nor Subscribe: what SNS holds is left as it is.  The only effect
    on the table is the removal of the author's own item. *)
Theorem unsubscribe_never_calls_sns env cfg message t :
  calls is_sns (log (handleUnsubscribe env cfg message t)) = [] /\
  (tbl (handleUnsubscribe env cfg message t) = t \/
   tbl (handleUnsubscribe env cfg message t) = delete (author_id message) t) /\
  (forall userId, userId <> author_id message ->
     tbl (handleUnsubscribe env cfg message t) !! userId = t !! userId).
Proof.
  split; [|split; [apply handleUnsubscribe_table|]].
  - unfold_bot. red_out.
    destruct (ddb_up env (DdbGet _ _)); red_out.
    + destruct (t !! author_id message) as [[u [|c number]]|];
        cbn [PhoneNumber]; red_out.
      2: destruct (ddb_up env _); red_out;
           [destruct (author_send env unsubscribe_done); red_out|].
      all: repeat (split_call; red_out); reflexivity.
    + destruct (author_send env unsubscribe_failed); reflexivity.
  - intros userId Hother.
    destruct (handleUnsubscribe_table env cfg message t) as [-> | ->];
      [reflexivity|]. now apply lookup_delete_ne.
Qed.

(** ** What the bot writes *)

Section Invariant.

Variable cfg : ProcessEnv.

Lemma confirms_nothing_refl t : confirms_nothing t t.
Proof. intros userId n _. reflexivity. Qed.

Lemma confirms_nothing_trans t1 t2 t3 :
  confirms_nothing t1 t2 -> confirms_nothing t2 t3 -> confirms_nothing t1 t3.
Proof.
  intros H12 H23 userId n H3.
  pose proof (H23 userId n H3) as H. rewrite <- H in H3.
  rewrite (H12 userId n H3). exact H.
Qed.

Lemma confirms_nothing_delete userId t : confirms_nothing t (delete userId t).
Proof.
  intros u n. destruct (decide (userId = u)) as [->|Hne].
  - rewrite lookup_delete_eq. discriminate.
  - now rewrite lookup_delete_ne.
Qed.

Lemma confirms_nothing_save userId phoneNumber t :
  confirms_nothing t
    (<[userId := mkItem userId (pending_marker +:+ phoneNumber)]> t).
Proof.
  intros u n. destruct (decide (userId = u)) as [->|Hne].
  - rewrite lookup_insert_eq.
    destruct (saved_item_is_pending u phoneNumber) as [_ ->]. discriminate.
  - now rewrite lookup_insert_ne.
Qed.

Lemma writes_pending_only_app l1 l2 :
  writes_pending_only l1 -> writes_pending_only l2 ->
  writes_pending_only (l1 ++ l2).
Proof.
  intros H1 H2 tableName item. rewrite map_app, in_app_iff.
  intros [Hin|Hin]; [apply (H1 _ _ Hin)|apply (H2 _ _ Hin)].
Qed.

Lemma handleInspire_invariant env message t :
  writes_pending_only (log (handleInspire env cfg message t)) /\
  tbl (handleInspire env cfg message t) = t.
Proof.
  unfold_bot. red_out.
  destruct (axios_get env zenquotes) as [data|]; red_out.
  2: { destruct (author_send env inspire_failed); red_out.
       all: split; [|reflexivity].
       all: intros tableName item Hin; cbn in Hin; intuition discriminate. }
  destruct (channel_send env _); red_out.
  2: { destruct (author_send env inspire_failed); red_out.
       all: split; [|reflexivity].
       all: intros tableName item Hin; cbn in Hin; intuition discriminate. }
  destruct (ddb_up env _); red_out.
  2: { destruct (author_send env inspire_failed); red_out.
       all: split; [|reflexivity].
       all: intros tableName item Hin; cbn in Hin; intuition discriminate. }
  destruct (t !! author_id message) as [[u [|c number]]|];
    cbn [PhoneNumber]; red_out.
  2: destruct (sns_publish env _ _); red_out;
       [destruct (author_send env inspire_ack); red_out|].
  all: try (destruct (author_send env inspire_failed); red_out).
  all: split; [|reflexivity].
  all: intros tableName item Hin; cbn in Hin; intuition discriminate.
Qed.

Lemma handleSubscribe_invariant env message t :
  writes_pending_only (log (handleSubscribe env cfg message t)) /\
  confirms_nothing t (tbl (handleSubscribe env cfg message t)).
Proof.
  split.
  - intros tableName item Hin.
    apply in_map_iff in Hin as (entry & Hcall & Hin).
    apply in_split in Hin as (before & after & Hsplit).
    destruct (put_only_after_subscribe env cfg message t before entry after
                Hsplit) as (endpoint & _ & Hput); [now rewrite Hcall|].
    rewrite Hcall in Hput. injection Hput as _ ->.
    apply saved_item_is_pending.
  - walk; cbn [UserId];
      first [apply confirms_nothing_refl | apply confirms_nothing_save].
Qed.

Lemma handleUnsubscribe_invariant env message t :
  writes_pending_only (log (handleUnsubscribe env cfg message t)) /\
  confirms_nothing t (tbl (handleUnsubscribe env cfg message t)).
Proof.
  split.
  - intros tableName item Hin. exfalso. revert Hin.
    unfold_bot. red_out.
    destruct (ddb_up env (DdbGet _ _)); red_out.
    + destruct (t !! author_id message) as [[u [|c number]]|];
        cbn [PhoneNumber]; red_out.
      2: destruct (ddb_up env _); red_out;
           [destruct (author_send env unsubscribe_done); red_out|].
      all: repeat (split_call; red_out); cbn; intuition discriminate.
    + destruct (author_send env unsubscribe_failed); cbn; intuition discriminate.
  - destruct (handleUnsubscribe_table env cfg message t) as [-> | ->];
      [apply confirms_nothing_refl | apply confirms_nothing_delete].
Qed.

(** One event: whatever the message and the answers of the outside. *)
Lemma messageCreate_invariant env message t :
  writes_pending_only (log (messageCreate env cfg message t)) /\
  confirms_nothing t (tbl (messageCreate env cfg message t)).
Proof.
  assert (Hskip : forall t0 : gmap string Item,
             writes_pending_only (log (ret tt t0)) /\
             confirms_nothing t0 (tbl (ret tt t0))).
  { intros t0. split; [intros ? ? []|apply confirms_nothing_refl]. }
  assert (Hseq : forall (m k : M unit) t0,
             (forall t1, writes_pending_only (log (m t1)) /\
                         confirms_nothing t1 (tbl (m t1))) ->
             (forall t1, writes_pending_only (log (k t1)) /\
                         confirms_nothing t1 (tbl (k t1))) ->
             writes_pending_only (log (bind m (fun _ => k) t0)) /\
             confirms_nothing t0 (tbl (bind m (fun _ => k) t0))).
  { intros m k t0 Hm Hk. unfold bind.
    destruct (Hm t0) as [Hm1 Hm2].
    destruct (m t0) as [[a|e] t1 l1]; cbn [log tbl] in *; [|split; assumption].
    destruct (Hk t1) as [Hk1 Hk2].
    destruct (k t1) as [r t2 l2]; cbn [log tbl] in *. split.
    - now apply writes_pending_only_app.
    - now apply confirms_nothing_trans with t1. }
  unfold messageCreate. destruct (author_bot message); [apply Hskip|].
  apply Hseq; [|intros t1; apply Hseq]; intros t2.
  - destruct (startsWith _ _); [|apply Hskip].
    destruct (handleInspire_invariant env message t2) as [Hw Ht].
    split; [exact Hw|]. rewrite Ht. apply confirms_nothing_refl.
  - destruct (startsWith _ _); [|apply Hskip].
    apply handleSubscribe_invariant.
  - destruct (startsWith _ _); [|apply Hskip].
    apply handleUnsubscribe_invariant.
Qed.

End Invariant.

(** C9.  Over every sequence of messages, with any answers of the outside
    world to each of them and from any table: every item the bot sends in a
    Put command carries the pending marker, and a record that is [Confirmed]
    in the final table is the very item the initial table held for that user.
    No command of the bot creates a [Confirmed] record, and none turns a
    [Pending] record into a [Confirmed] one. *)
Theorem bot_never_confirms cfg events t :
  (forall tableName item,
     In (DdbPut tableName item) (map call (snd (run cfg events t))) ->
     exists n, phoneState (Some item) = Pending n) /\
  (forall userId n,
     phoneState (fst (run cfg events t) !! userId) = Confirmed n ->
     t !! userId = fst (run cfg events t) !! userId) /\
  (forall userId n k,
     phoneState (t !! userId) = Pending n ->
     phoneState (fst (run cfg events t) !! userId) <> Confirmed k).
Proof.
  assert (H : writes_pending_only (snd (run cfg events t)) /\
              confirms_nothing t (fst (run cfg events t))).
  { revert t. induction events as [|[env message] events IH]; intros t.
    - split; [intros ? ? []|apply confirms_nothing_refl].
    - cbn [run fst snd].
      destruct (messageCreate_invariant cfg env message t) as [Hw Hc].
      destruct (IH (tbl (messageCreate env cfg message t))) as [Hws Hcs].
      split; [now apply writes_pending_only_app|].
      now apply confirms_nothing_trans with (tbl (messageCreate env cfg message t)). }
  destruct H as [Hw Hc]. repeat split.
  - intros tableName item Hin. apply phoneState_pending. exact (Hw _ _ Hin).
  - exact Hc.
  - intros userId n k Hp Hk. rewrite <- (Hc userId k Hk) in Hk. congruence.
Qed.

(** The scenario of a user who subscribes and then asks for a quote: the
    reply is stored with the marker, and the next [!inspire] hands the stored
    value, marker included, to SNS. *)
Example subscribe_then_inspire :
  let r := run bot_config
             [(obliging, from_U "!subscribe"); (obliging, from_U "!inspire")]
             no_record in
  fst r !! "U" = Some (mkItem "U" "pending:+15551234567") /\
  publishes (snd r) = [("pending:+15551234567", "Stay hungry -Anon")].
Proof. split; reflexivity. Qed.

(** Unsubscribing twice: the second run finds no record and says so. *)
Example unsubscribe_twice :
  map call (snd (run bot_config
                   [(obliging, from_U "!unsubscribe");
                    (obliging, from_U "!unsubscribe")]
                   confirmed_record))
  = [DdbGet "PhoneNumbers" "U"; DdbDelete "PhoneNumbers" "U";
     AuthorSend unsubscribe_done;
     LoggerInfo "Phone number +15551234567 for user U has been unsubscribed.";
     DdbGet "PhoneNumbers" "U"; AuthorSend not_subscribed].
Proof. reflexivity. Qed.

(** * Further properties of the code *)

(** ** The store helpers *)

(** X1.  What [savePhoneNumber] has written, [getPhoneNumber] reads back for
    the same user; for every other user the answer is what it was before. *)
Theorem save_then_get env env' cfg userId phoneNumber t :
  ddb_up env (DdbPut (DYNAMODB_TABLE cfg) (mkItem userId phoneNumber)) = true ->
  ddb_up env' (DdbGet (DYNAMODB_TABLE cfg) userId) = true ->
  let saved := tbl (savePhoneNumber env cfg userId phoneNumber t) in
  res (getPhoneNumber env' cfg userId saved) = Return (Some phoneNumber) /\
  (forall other, other <> userId ->
     res (getPhoneNumber env' cfg other saved)
     = res (getPhoneNumber env' cfg other t)).
Proof.
  intros Hput Hget. cbv zeta.
  unfold savePhoneNumber, getPhoneNumber, ddb_put, ddb_get, try_catch, bind, ret.
  rewrite Hput. cbn [tbl UserId]. split.
  - rewrite Hget, lookup_insert_eq. reflexivity.
  - intros other Hother. destruct (ddb_up env' (DdbGet _ other)); [|reflexivity].
    cbn. rewrite lookup_insert_ne by congruence. reflexivity.
Qed.

Lemma save_then_get_witness :
  res (getPhoneNumber obliging bot_config "U"
         (tbl (savePhoneNumber obliging bot_config "U" "pending:+15550100"
                 confirmed_record)))
  = Return (Some "pending:+15550100").
Proof.
  apply (save_then_get obliging obliging bot_config "U" "pending:+15550100"
           confirmed_record); reflexivity.
Defined.

(** X2.  After [deletePhoneNumber], [getPhoneNumber] answers [null] for that
    user, without an error; for every other user the answer is what it was
    before. *)
Theorem delete_then_get env env' cfg userId t :
  ddb_up env (DdbDelete (DYNAMODB_TABLE cfg) userId) = true ->
  ddb_up env' (DdbGet (DYNAMODB_TABLE cfg) userId) = true ->
  let cleared := tbl (deletePhoneNumber env cfg userId t) in
  res (getPhoneNumber env' cfg userId cleared) = Return None /\
  (forall other, other <> userId ->
     res (getPhoneNumber env' cfg other cleared)
     = res (getPhoneNumber env' cfg other t)).
Proof.
  intros Hdel Hget. cbv zeta.
  unfold deletePhoneNumber, getPhoneNumber, ddb_delete, ddb_get, try_catch, bind, ret.
  rewrite Hdel. cbn [tbl]. split.
  - rewrite Hget, lookup_delete_eq. reflexivity.
  - intros other Hother. destruct (ddb_up env' (DdbGet _ other)); [|reflexivity].
    cbn. rewrite lookup_delete_ne by congruence. reflexivity.
Qed.

Lemma delete_then_get_witness :
  res (getPhoneNumber obliging bot_config "U"
         (tbl (deletePhoneNumber obliging bot_config "U" confirmed_record)))
  = Return None.
Proof.
  apply (delete_then_get obliging obliging bot_config "U" confirmed_record);
    reflexivity.
Defined.

(** ** More on the router *)

Lemma flows_begin env cfg message t :
  (exists first rest, log (handleInspire env cfg message t) = first :: rest) /\
  (exists first rest, log (handleSubscribe env cfg message t) = first :: rest) /\
  (exists first rest, log (handleUnsubscribe env cfg message t) = first :: rest).
Proof.
  repeat split.
  - walk; destruct (t !! author_id message) as [[u [|c number]]|];
      cbn [PhoneNumber]; red_out; eexists _, _; reflexivity.
  - walk; eexists _, _; reflexivity.
  - unfold_bot. red_out. destruct (ddb_up env _); red_out.
    + destruct (t !! author_id message) as [[u [|c number]]|];
        cbn [PhoneNumber]; red_out; repeat (split_call; red_out);
        eexists _, _; reflexivity.
    + destruct (author_send env unsubscribe_failed); red_out;
        eexists _, _; reflexivity.
Qed.

(** X3.  The handler does nothing at all, no call and no change of the
    table, exactly when the author is a bot or the text begins with none of
    the three commands; in every other case at least one call is made. *)
Theorem messageCreate_silent_iff env cfg message t :
  (log (messageCreate env cfg message t) = [] <->
   author_bot message = true \/ no_command (content message) = true) /\
  (author_bot message = true \/ no_command (content message) = true ->
   messageCreate env cfg message t = mkOut (Return tt) t []).
Proof.
  assert (Hquiet : author_bot message = true \/ no_command (content message) = true ->
                   messageCreate env cfg message t = mkOut (Return tt) t []).
  { intros [Hbot|Hnone]; [now apply messageCreate_bot|].
    unfold no_command in Hnone.
    apply andb_prop in Hnone as [Hnone H3]. apply andb_prop in Hnone as [H1 H2].
    apply negb_true_iff in H1, H2, H3.
    unfold messageCreate. rewrite H1, H2, H3. now destruct (author_bot message). }
  split; [|exact Hquiet]. split; [|intros H; now rewrite (Hquiet H)].
  intros Hlog. destruct (author_bot message) eqn:Hbot; [now left|right].
  destruct (flows_begin env cfg message t)
    as ((i1 & r1 & Hi) & (s1 & r2 & Hs) & (u1 & r3 & Hu)).
  unfold no_command.
  destruct (startsWith (content message) "!inspire") eqn:H1.
  { rewrite (messageCreate_inspire env cfg message t Hbot H1) in Hlog. congruence. }
  destruct (startsWith (content message) "!subscribe") eqn:H2.
  { rewrite (messageCreate_subscribe env cfg message t Hbot H2) in Hlog. congruence. }
  destruct (startsWith (content message) "!unsubscribe") eqn:H3.
  { rewrite (messageCreate_unsubscribe env cfg message t Hbot H3) in Hlog. congruence. }
  reflexivity.
Qed.

(** X4.  The three tests of the handler exclude each other: a message of a
    user that begins with one of the commands, whatever follows the command,
    runs that flow and no other. *)
Theorem messageCreate_runs_one_flow env cfg message t :
  author_bot message = false ->
  (startsWith (content message) "!inspire" = true ->
   messageCreate env cfg message t = handleInspire env cfg message t) /\
  (startsWith (content message) "!subscribe" = true ->
   messageCreate env cfg message t = handleSubscribe env cfg message t) /\
  (startsWith (content message) "!unsubscribe" = true ->
   messageCreate env cfg message t = handleUnsubscribe env cfg message t).
Proof.
  intros Hbot. repeat split; intros Hcmd.
  - now apply messageCreate_inspire.
  - now apply messageCreate_subscribe.
  - now apply messageCreate_unsubscribe.
Qed.

Lemma messageCreate_runs_one_flow_witness :
  messageCreate obliging bot_config (from_U "!unsubscribe me please") pending_record
  = handleUnsubscribe obliging bot_config (from_U "!unsubscribe me please")
      pending_record.
Proof.
  apply (messageCreate_runs_one_flow obliging bot_config
           (from_U "!unsubscribe me please") pending_record); reflexivity.
Defined.

(** ** More on the inspire flow *)

(** X5.  The inspire branch only reads: whatever happens, the table is as it
    was and no Put, Delete or Subscribe command is sent. *)
Theorem inspire_never_writes env cfg message t :
  tbl (handleInspire env cfg message t) = t /\
  calls is_mutation (log (handleInspire env cfg message t)) = [].
Proof.
  unfold_bot. red_out.
  destruct (axios_get env zenquotes) as [data|]; red_out.
  2: destruct (author_send env inspire_failed); split; reflexivity.
  destruct (channel_send env _); red_out.
  2: destruct (author_send env inspire_failed); split; reflexivity.
  destruct (ddb_up env _); red_out.
  2: destruct (author_send env inspire_failed); split; reflexivity.
  destruct (t !! author_id message) as [[u [|c number]]|];
    cbn [PhoneNumber]; red_out; try (split; reflexivity).
  destruct (sns_publish env _ _); red_out;
    [destruct (author_send env inspire_ack); red_out|].
  all: try (destruct (author_send env inspire_failed); red_out).
  all: split; reflexivity.
Qed.

(** X6.  A Publish command is sent only to the non-empty number stored for
    the author, only after the same text was posted to the channel and the
    record was read, and at most once in a run. *)
Theorem inspire_publish_follows_post env cfg message t
    before entry after phoneNumber body :
  log (handleInspire env cfg message t) = (before ++ entry :: after)%list ->
  call entry = SnsPublish phoneNumber body ->
  (exists item, t !! author_id message = Some item /\
                PhoneNumber item = phoneNumber /\ phoneNumber <> EmptyString) /\
  In (mkEntry (ChannelSend body) Fulfilled) before /\
  In (mkEntry (DdbGet (DYNAMODB_TABLE cfg) (author_id message)) Fulfilled) before /\
  publishes before = [] /\ publishes after = [].
Proof.
  revert before entry after. unfold_bot. red_out.
  destruct (axios_get env zenquotes) as [data|]; red_out.
  2: { destruct (author_send env inspire_failed); red_out;
       intros before entry after Hsplit Hcall; locate before Hsplit; discriminate. }
  destruct (channel_send env _); red_out.
  2: { destruct (author_send env inspire_failed); red_out;
       intros before entry after Hsplit Hcall; locate before Hsplit; discriminate. }
  destruct (ddb_up env _); red_out.
  2: { destruct (author_send env inspire_failed); red_out;
       intros before entry after Hsplit Hcall; locate before Hsplit; discriminate. }
  destruct (t !! author_id message) as [[u [|c number]]|];
    cbn [PhoneNumber]; red_out.
  1, 3: intros before entry after Hsplit Hcall; locate before Hsplit; discriminate.
  destruct (sns_publish env _ _); red_out;
    [destruct (author_send env inspire_ack); red_out|].
  all: try (destruct (author_send env inspire_failed); red_out).
  all: intros before entry after Hsplit Hcall; locate before Hsplit;
    try discriminate; cbn [call] in Hcall; injection Hcall as <- <-.
  all: (split; [eexists; repeat split; discriminate|]); cbn; tauto.
Qed.

Lemma inspire_publish_follows_post_witness :
  In (mkEntry (ChannelSend "Stay hungry -Anon") Fulfilled)
     [mkEntry (AxiosGet zenquotes) Fulfilled;
      mkEntry (ChannelSend "Stay hungry -Anon") Fulfilled;
      mkEntry (DdbGet "PhoneNumbers" "U") Fulfilled].
Proof.
  apply (inspire_publish_follows_post obliging bot_config (from_U "!inspire")
           confirmed_record
           [mkEntry (AxiosGet zenquotes) Fulfilled;
            mkEntry (ChannelSend "Stay hungry -Anon") Fulfilled;
            mkEntry (DdbGet "PhoneNumbers" "U") Fulfilled]
           (mkEntry (SnsPublish "+15551234567" "Stay hungry -Anon") Fulfilled)
           [mkEntry (LoggerInfo "Message published to phone number +15551234567 with message Id - message-1") Fulfilled;
            mkEntry (AuthorSend inspire_ack) Fulfilled]
           "+15551234567" "Stay hungry -Anon"); reflexivity.
Defined.

(** X7.  Posting and notifying are not undone together: when SNS rejects
    the Publish command, the quote has already been posted and stays so, no
    acknowledgment is sent, and the author receives the message that
    something went wrong while fetching the quote. *)
Theorem inspire_sms_failure_keeps_post env cfg message t item data :
  t !! author_id message = Some item ->
  PhoneNumber item <> EmptyString ->
  axios_get env zenquotes = Some data ->
  channel_send env (quote_of data) = true ->
  ddb_up env (DdbGet (DYNAMODB_TABLE cfg) (author_id message)) = true ->
  sns_publish env (PhoneNumber item) (quote_of data) = None ->
  exists sent,
    log (handleInspire env cfg message t) =
      [mkEntry (AxiosGet zenquotes) Fulfilled;
       mkEntry (ChannelSend (quote_of data)) Fulfilled;
       mkEntry (DdbGet (DYNAMODB_TABLE cfg) (author_id message)) Fulfilled;
       mkEntry (SnsPublish (PhoneNumber item) (quote_of data))
         (Rejected DeliveryRejected);
       mkEntry (LoggerError "Could not publish to this phone number:"
                  DeliveryRejected) Fulfilled;
       mkEntry (LoggerError "Error handling !inspire command:" DeliveryRejected)
         Fulfilled;
       mkEntry (AuthorSend inspire_failed) sent].
Proof.
  intros Hitem Hn Hq Hpost Hget Hsms.
  destruct item as [u [|c number]]; [now cbn in Hn|].
  unfold quote_of in *. cbn [PhoneNumber] in Hsms.
  unfold_bot. rewrite Hq. red_out. rewrite Hpost. red_out.
  rewrite Hget. red_out. rewrite Hitem. cbn [PhoneNumber]. red_out.
  cbn [id]. rewrite Hsms. red_out.
  destruct (author_send env inspire_failed); red_out; eexists; reflexivity.
Qed.

Lemma inspire_sms_failure_keeps_post_witness :
  map call (log (handleInspire sms_rejecting bot_config (from_U "!inspire")
                   confirmed_record)) =
    [AxiosGet zenquotes; ChannelSend "Stay hungry -Anon";
     DdbGet "PhoneNumbers" "U";
     SnsPublish "+15551234567" "Stay hungry -Anon";
     LoggerError "Could not publish to this phone number:" DeliveryRejected;
     LoggerError "Error handling !inspire command:" DeliveryRejected;
     AuthorSend inspire_failed].
Proof.
  destruct (inspire_sms_failure_keeps_post sms_rejecting bot_config
              (from_U "!inspire") confirmed_record
              (mkItem "U" "+15551234567") ("Stay hungry", "Anon"))
    as [sent Hlog]; [reflexivity | discriminate | reflexivity..|].
  rewrite Hlog. reflexivity.
Defined.

(** X8.  The acknowledgment that the quote was sent to the phone is sent
    only after a Publish command was accepted, for the text that was posted
    to the channel. *)
Theorem inspire_ack_follows_publish env cfg message t before entry after :
  log (handleInspire env cfg message t) = (before ++ entry :: after)%list ->
  call entry = AuthorSend inspire_ack ->
  exists phoneNumber body,
    In (mkEntry (SnsPublish phoneNumber body) Fulfilled) before /\
    In (mkEntry (ChannelSend body) Fulfilled) before.
Proof.
  revert before entry after. unfold_bot. red_out.
  destruct (axios_get env zenquotes) as [data|]; red_out.
  2: { destruct (author_send env inspire_failed); red_out;
       intros before entry after Hsplit Hcall; locate before Hsplit; discriminate. }
  destruct (channel_send env _); red_out.
  2: { destruct (author_send env inspire_failed); red_out;
       intros before entry after Hsplit Hcall; locate before Hsplit; discriminate. }
  destruct (ddb_up env _); red_out.
  2: { destruct (author_send env inspire_failed); red_out;
       intros before entry after Hsplit Hcall; locate before Hsplit; discriminate. }
  destruct (t !! author_id message) as [[u [|c number]]|];
    cbn [PhoneNumber]; red_out.
  1, 3: intros before entry after Hsplit Hcall; locate before Hsplit; discriminate.
  destruct (sns_publish env _ _); red_out;
    [destruct (author_send env inspire_ack); red_out|].
  all: try (destruct (author_send env inspire_failed); red_out).
  all: intros before entry after Hsplit Hcall; locate before Hsplit;
    try discriminate.
  all: eexists _, _; cbn; split; eauto 10.
Qed.

Lemma inspire_ack_follows_publish_witness :
  exists phoneNumber body,
    In (mkEntry (SnsPublish phoneNumber body) Fulfilled)
       (removelast (log (handleInspire obliging bot_config (from_U "!inspire")
                           pending_record))) /\
    In (mkEntry (ChannelSend body) Fulfilled)
       (removelast (log (handleInspire obliging bot_config (from_U "!inspire")
                           pending_record))).
Proof.
  apply (inspire_ack_follows_publish obliging bot_config (from_U "!inspire")
           pending_record _ (mkEntry (AuthorSend inspire_ack) Fulfilled) []);
    reflexivity.
Defined.

(** ** More on the subscribe flow *)

Lemma collect_member author time inbox m rest :
  collect (fun response => bool_decide (from response = author)) 1 time inbox
  = Some (m :: rest) ->
  In m inbox /\ from m = author /\ (at_ms m < time)%Z /\ rest = [] /\
  reply_in_time author time inbox = Some m.
Proof.
  rewrite collect_one. fold (reply_in_time author time inbox).
  destruct (reply_in_time author time inbox) as [m'|] eqn:Hfind; [|discriminate].
  intros [= <- <-]. unfold reply_in_time in Hfind.
  apply find_some in Hfind as [Hin Hm].
  apply andb_prop in Hm as [Hfrom Hat].
  apply bool_decide_eq_true in Hfrom. apply Z.ltb_lt in Hat. auto.
Qed.

Lemma trimEnd_last s c : last_char (trimEnd s) = Some c -> isWhiteSpace c = false.
Proof.
  induction s as [|a s IH]; cbn [trimEnd]; [discriminate|].
  destruct (trimEnd s) as [|b kept] eqn:Hkept.
  - destruct (isWhiteSpace a) eqn:Ha; cbn; [discriminate|]. congruence.
  - intros H. apply IH. exact H.
Qed.

(** What [trim] returns neither begins nor ends with white space. *)
Lemma trim_edges s :
  (forall c, first_char (trim s) = Some c -> isWhiteSpace c = false) /\
  (forall c, last_char (trim s) = Some c -> isWhiteSpace c = false).
Proof.
  split; intros c H.
  - destruct (trim s) as [|a rest] eqn:Htrim; [discriminate|].
    injection H as ->. exact (trim_no_leading_space s c rest Htrim).
  - exact (trimEnd_last _ _ H).
Qed.

Lemma trim_all_space s : all_space s = true -> trim s = EmptyString.
Proof.
  unfold trim. induction s as [|a s IH]; cbn; [reflexivity|].
  intros H. apply andb_prop in H as [Ha Hs]. rewrite Ha. auto.
Qed.

(** X9.  Whatever the subscribe branch writes comes from the author: the
    item of a Put command is the marker followed by the trimmed text of the
    first message that the author, and nobody else, sent to the direct
    channel before the 60000 ms had passed; the number after the marker
    neither begins nor ends with white space. *)
Theorem subscribe_stores_authors_reply env cfg message t tableName item :
  In (DdbPut tableName item) (map call (log (handleSubscribe env cfg message t))) ->
  exists m,
    In m (dm_inbox env) /\ from m = author_id message /\ (at_ms m < 60000)%Z /\
    reply_in_time (author_id message) 60000 (dm_inbox env) = Some m /\
    tableName = DYNAMODB_TABLE cfg /\
    item = mkItem (author_id message) (pending_marker +:+ trim (text m)) /\
    (forall c, first_char (trim (text m)) = Some c -> isWhiteSpace c = false) /\
    (forall c, last_char (trim (text m)) = Some c -> isWhiteSpace c = false).
Proof.
  unfold_bot. red_out.
  destruct (author_createDM env); red_out.
  2: destruct (author_send env subscribe_failed); cbn; intuition discriminate.
  destruct (dm_send env subscribe_prompt); red_out.
  2: destruct (author_send env subscribe_failed); cbn; intuition discriminate.
  destruct (collect _ 1 60000%Z (dm_inbox env)) as [[|m rest]|] eqn:Hcollect; red_out.
  1, 3: destruct (author_send env subscribe_failed); cbn; intuition discriminate.
  apply collect_member in Hcollect as (Hin & Hfrom & Hat & _ & Hreply).
  destruct (sns_subscribe env _ _ _); red_out.
  2: destruct (author_send env subscribe_failed); cbn; intuition discriminate.
  destruct (dm_send env subscribe_thanks); red_out.
  2: destruct (author_send env subscribe_failed); cbn; intuition discriminate.
  destruct (ddb_up env _); red_out.
  2: destruct (author_send env subscribe_failed); red_out.
  all: cbn [map call In]; intros Hput; destruct_or?; try discriminate;
    try contradiction.
  all: injection Hput as <- <-; exists m;
    destruct (trim_edges (text m)); auto 10.
Qed.

Lemma subscribe_stores_authors_reply_witness :
  exists m,
    In m (dm_inbox obliging) /\ from m = "U" /\ (at_ms m < 60000)%Z /\
    mkItem "U" "pending:+15551234567"
    = mkItem "U" (pending_marker +:+ trim (text m)).
Proof.
  destruct (subscribe_stores_authors_reply obliging bot_config
              (from_U "!subscribe") no_record "PhoneNumbers"
              (mkItem "U" "pending:+15551234567"))
    as (m & Hin & Hfrom & Hat & _ & _ & Hitem & _).
  - vm_compute. tauto.
  - exists m. auto.
Defined.

(** X10.  The reply is not validated: when the author answers with white
    space only, the Subscribe command is sent with the empty string as
    endpoint, and if every call is accepted the stored value is the bare
    marker. *)
Theorem subscribe_blank_reply env cfg message t m :
  reply_in_time (author_id message) 60000 (dm_inbox env) = Some m ->
  all_space (text m) = true ->
  author_createDM env = true ->
  dm_send env subscribe_prompt = true ->
  let o := handleSubscribe env cfg message t in
  In (SnsSubscribe "sms" (TOPIC_ARN cfg) EmptyString) (map call (log o)) /\
  (forallb fulfilled (log o) = true ->
   tbl o !! author_id message = Some (mkItem (author_id message) pending_marker)).
Proof.
  intros Hreply Hblank Hdm Hprompt. apply collect_reply in Hreply.
  apply trim_all_space in Hblank. cbv zeta.
  unfold_bot. rewrite Hdm. red_out. rewrite Hprompt. red_out.
  rewrite Hreply. red_out. rewrite Hblank.
  destruct (sns_subscribe env _ _ _); red_out;
    [destruct (dm_send env subscribe_thanks); red_out;
     [destruct (ddb_up env _); red_out|]|];
    destruct (author_send env subscribe_failed); red_out.
  all: split; [cbn; tauto|]; cbn [forallb fulfilled outcome andb];
    try discriminate.
  all: intros _; cbn [UserId]; now rewrite lookup_insert_eq.
Qed.

Lemma subscribe_blank_reply_witness :
  In (SnsSubscribe "sms" (TOPIC_ARN bot_config) EmptyString)
     (map call (log (handleSubscribe blank_reply bot_config (from_U "!subscribe")
                       no_record))).
Proof.
  apply (subscribe_blank_reply blank_reply bot_config (from_U "!subscribe")
           no_record (mkIncoming "U" "   " 900)); reflexivity.
Defined.

(** X11.  Subscribing at SNS and saving the record are not one step: when
    the Subscribe command was accepted and a later call of the run is
    rejected, the table is as it was before, although SNS holds the
    subscription, and the author is sent the subscription error. *)
Theorem subscribed_but_not_saved env cfg message t protocol topicArn endpoint :
  In (mkEntry (SnsSubscribe protocol topicArn endpoint) Fulfilled)
     (log (handleSubscribe env cfg message t)) ->
  forallb fulfilled (log (handleSubscribe env cfg message t)) = false ->
  tbl (handleSubscribe env cfg message t) = t /\
  In (AuthorSend subscribe_failed)
     (map call (log (handleSubscribe env cfg message t))).
Proof.
  walk.
  all: cbn [In forallb fulfilled outcome andb]; intros Hin Hbad;
    destruct_or?; simplify_eq; try contradiction.
  all: split; [reflexivity|]; cbn; tauto.
Qed.

Lemma subscribed_but_not_saved_witness :
  tbl (handleSubscribe read_only_store bot_config (from_U "!subscribe")
         no_record) = no_record.
Proof.
  apply (subscribed_but_not_saved read_only_store bot_config
           (from_U "!subscribe") no_record "sms" (TOPIC_ARN bot_config)
           "+15551234567").
  - vm_compute. tauto.
  - reflexivity.
Defined.

Lemma handleSubscribe_table env cfg message t :
  tbl (handleSubscribe env cfg message t) = t \/
  exists phoneNumber,
    tbl (handleSubscribe env cfg message t)
    = <[author_id message := mkItem (author_id message) phoneNumber]> t.
Proof. walk; cbn [UserId]; eauto. Qed.

(** X12.  The subscribe branch never deletes and never publishes, sends at
    most one Put command, and leaves the record of every user other than
    the author as it was. *)
Theorem subscribe_touches_only_author env cfg message t :
  calls is_delete (log (handleSubscribe env cfg message t)) = [] /\
  publishes (log (handleSubscribe env cfg message t)) = [] /\
  length (calls is_put (log (handleSubscribe env cfg message t))) <= 1 /\
  (forall userId, userId <> author_id message ->
     tbl (handleSubscribe env cfg message t) !! userId = t !! userId).
Proof.
  split; [|split; [|split]].
  - walk; reflexivity.
  - walk; reflexivity.
  - walk; cbn; lia.
  - intros userId Hother.
    destruct (handleSubscribe_table env cfg message t) as [-> | [p ->]];
      [reflexivity|]. rewrite lookup_insert_ne by congruence. reflexivity.
Qed.

(** ** More on the unsubscribe flow *)

(** X13.  When DynamoDB rejects the Delete command, the record stays in the
    table, no confirmation is sent, and the author is sent the error
    message of the unsubscribe flow. *)
Theorem unsubscribe_delete_failure env cfg message t item :
  t !! author_id message = Some item ->
  PhoneNumber item <> EmptyString ->
  ddb_up env (DdbGet (DYNAMODB_TABLE cfg) (author_id message)) = true ->
  ddb_up env (DdbDelete (DYNAMODB_TABLE cfg) (author_id message)) = false ->
  let o := handleUnsubscribe env cfg message t in
  tbl o = t /\
  exists sent,
    log o =
      [mkEntry (DdbGet (DYNAMODB_TABLE cfg) (author_id message)) Fulfilled;
       mkEntry (DdbDelete (DYNAMODB_TABLE cfg) (author_id message))
         (Rejected StoreUnavailable);
       mkEntry (LoggerError "Could not delete phone number from DynamoDB:"
                  StoreUnavailable) Fulfilled;
       mkEntry (LoggerError "Error handling !unsubscribe command:"
                  StoreUnavailable) Fulfilled;
       mkEntry (AuthorSend unsubscribe_failed) sent].
Proof.
  intros Hitem Hn Hget Hdel. cbv zeta.
  destruct item as [u [|c number]]; [now cbn in Hn|].
  unfold_bot. rewrite Hget, Hitem. cbn [PhoneNumber]. red_out.
  rewrite Hdel. red_out.
  destruct (author_send env unsubscribe_failed); red_out;
    (split; [reflexivity|eexists; reflexivity]).
Qed.

Lemma unsubscribe_delete_failure_witness :
  tbl (handleUnsubscribe read_only_store bot_config (from_U "!unsubscribe")
         confirmed_record) = confirmed_record.
Proof.
  apply (unsubscribe_delete_failure read_only_store bot_config
           (from_U "!unsubscribe") confirmed_record (mkItem "U" "+15551234567"));
    [reflexivity | discriminate | reflexivity | reflexivity].
Defined.

(** X14.  When the record was deleted but the confirmation could not be
    delivered, the failure is handled like any other: the author is sent
    the message that there was an error unsubscribing, although the record
    is gone. *)
Theorem unsubscribe_lost_confirmation env cfg message t item :
  t !! author_id message = Some item ->
  PhoneNumber item <> EmptyString ->
  ddb_up env (DdbGet (DYNAMODB_TABLE cfg) (author_id message)) = true ->
  ddb_up env (DdbDelete (DYNAMODB_TABLE cfg) (author_id message)) = true ->
  author_send env unsubscribe_done = false ->
  let o := handleUnsubscribe env cfg message t in
  tbl o !! author_id message = None /\
  exists sent,
    log o =
      [mkEntry (DdbGet (DYNAMODB_TABLE cfg) (author_id message)) Fulfilled;
       mkEntry (DdbDelete (DYNAMODB_TABLE cfg) (author_id message)) Fulfilled;
       mkEntry (AuthorSend unsubscribe_done) (Rejected GatewayError);
       mkEntry (LoggerError "Error handling !unsubscribe command:" GatewayError)
         Fulfilled;
       mkEntry (AuthorSend unsubscribe_failed) sent].
Proof.
  intros Hitem Hn Hget Hdel Hsend. cbv zeta.
  destruct item as [u [|c number]]; [now cbn in Hn|].
  unfold_bot. rewrite Hget, Hitem. cbn [PhoneNumber]. red_out.
  rewrite Hdel. red_out. rewrite Hsend. red_out.
  destruct (author_send env unsubscribe_failed); red_out;
    (split; [apply lookup_delete_eq|eexists; reflexivity]).
Qed.

Lemma unsubscribe_lost_confirmation_witness :
  tbl (handleUnsubscribe deaf_to_confirmation bot_config (from_U "!unsubscribe")
         confirmed_record) !! "U" = None.
Proof.
  apply (unsubscribe_lost_confirmation deaf_to_confirmation bot_config
           (from_U "!unsubscribe") confirmed_record (mkItem "U" "+15551234567"));
    [reflexivity | discriminate | reflexivity | reflexivity | reflexivity].
Defined.

Lemma handleUnsubscribe_absent env cfg message t :
  t !! author_id message = None ->
  tbl (handleUnsubscribe env cfg message t) = t /\
  calls is_delete (log (handleUnsubscribe env cfg message t)) = [] /\
  ~ In (AuthorSend unsubscribe_done)
       (map call (log (handleUnsubscribe env cfg message t))).
Proof.
  intros Hnone. unfold_bot. red_out.
  destruct (ddb_up env _); red_out; rewrite ?Hnone; red_out;
    repeat (split_call; red_out); repeat split; cbn;
    unfold unsubscribe_done, not_subscribed, unsubscribe_failed;
    intuition discriminate.
Qed.

Lemma handleUnsubscribe_removes env cfg message t item :
  t !! author_id message = Some item ->
  PhoneNumber item <> EmptyString ->
  ddb_up env (DdbGet (DYNAMODB_TABLE cfg) (author_id message)) = true ->
  ddb_up env (DdbDelete (DYNAMODB_TABLE cfg) (author_id message)) = true ->
  tbl (handleUnsubscribe env cfg message t) = delete (author_id message) t.
Proof.
  intros Hitem Hn Hget Hdel.
  destruct item as [u [|c number]]; [now cbn in Hn|].
  unfold_bot. rewrite Hget, Hitem. cbn [PhoneNumber]. red_out.
  rewrite Hdel. red_out. repeat (split_call; red_out); reflexivity.
Qed.

(** The flows read nothing of the message but the id of its author. *)
Lemma flows_depend_on_author env cfg message message' :
  author_id message' = author_id message ->
  handleInspire env cfg message' = handleInspire env cfg message /\
  handleSubscribe env cfg message' = handleSubscribe env cfg message /\
  handleUnsubscribe env cfg message' = handleUnsubscribe env cfg message.
Proof.
  destruct message as [a b c], message' as [a' b' c']. cbn. intros ->.
  repeat split.
Qed.

(** X15.  Unsubscribing again after the record was deleted is harmless: the
    second run, whatever the outside answers, sends no Delete command,
    leaves the table as it is and does not confirm a second time. *)
Theorem unsubscribe_twice_deletes_once env env' cfg message message' t
    tableName userId :
  author_id message' = author_id message ->
  In (mkEntry (DdbDelete tableName userId) Fulfilled)
     (log (handleUnsubscribe env cfg message t)) ->
  let o := handleUnsubscribe env cfg message t in
  let o' := handleUnsubscribe env' cfg message' (tbl o) in
  tbl o !! author_id message = None /\
  calls is_delete (log o') = [] /\
  tbl o' = tbl o /\
  ~ In (AuthorSend unsubscribe_done) (map call (log o')).
Proof.
  intros Hsame Hin. cbv zeta.
  destruct (flows_depend_on_author env' cfg message message' Hsame)
    as (_ & _ & ->).
  assert (Hgone : tbl (handleUnsubscribe env cfg message t) !! author_id message
                  = None).
  { revert Hin. unfold_bot. red_out.
    destruct (ddb_up env (DdbGet _ _)); red_out.
    - destruct (t !! author_id message) as [[u [|c number]]|];
        cbn [PhoneNumber]; red_out.
      2: destruct (ddb_up env _); red_out;
           [destruct (author_send env unsubscribe_done); red_out|].
      all: repeat (split_call; red_out); cbn [In]; intros Hin;
        destruct_or?; simplify_eq; try contradiction.
      all: apply lookup_delete_eq.
    - destruct (author_send env unsubscribe_failed); cbn [In log];
        intros Hin; destruct_or?; simplify_eq; contradiction. }
  split; [exact Hgone|].
  destruct (handleUnsubscribe_absent env' cfg message _ Hgone)
    as (Htbl & Hdel & Hdone).
  auto.
Qed.

Lemma unsubscribe_twice_deletes_once_witness :
  calls is_delete
    (log (handleUnsubscribe obliging bot_config (from_U "!unsubscribe")
            (tbl (handleUnsubscribe obliging bot_config (from_U "!unsubscribe")
                    pending_record)))) = [].
Proof.
  apply (unsubscribe_twice_deletes_once obliging obliging bot_config
           (from_U "!unsubscribe") (from_U "!unsubscribe") pending_record
           "PhoneNumbers" "U"); [reflexivity|].
  vm_compute. tauto.
Defined.

Lemma subscribe_success_table env cfg message t :
  forallb fulfilled (log (handleSubscribe env cfg message t)) = true ->
  exists m,
    reply_in_time (author_id message) 60000 (dm_inbox env) = Some m /\
    tbl (handleSubscribe env cfg message t)
    = <[author_id message :=
          mkItem (author_id message) (pending_marker +:+ trim (text m))]> t.
Proof.
  unfold_bot. red_out.
  destruct (author_createDM env); red_out.
  2: destruct (author_send env subscribe_failed); discriminate.
  destruct (dm_send env subscribe_prompt); red_out.
  2: destruct (author_send env subscribe_failed); discriminate.
  rewrite collect_one.
  fold (reply_in_time (author_id message) 60000 (dm_inbox env)).
  destruct (reply_in_time _ _ _) as [m'|]; cbn [option_map]; red_out.
  2: destruct (author_send env subscribe_failed); discriminate.
  destruct (sns_subscribe env _ _ _); red_out.
  2: destruct (author_send env subscribe_failed); discriminate.
  destruct (dm_send env subscribe_thanks); red_out.
  2: destruct (author_send env subscribe_failed); discriminate.
  destruct (ddb_up env _); red_out.
  2: destruct (author_send env subscribe_failed); discriminate.
  intros _. exists m'. split; reflexivity.
Qed.

(** X16.  Every record the subscribe branch writes can be removed again:
    for a user without a record, a subscription in which no call is
    rejected, followed by an unsubscription for which DynamoDB answers,
    gives back the table exactly as it was. *)
Theorem subscribe_then_unsubscribe_restores env env' cfg message message' t :
  author_id message' = author_id message ->
  t !! author_id message = None ->
  forallb fulfilled (log (handleSubscribe env cfg message t)) = true ->
  ddb_up env' (DdbGet (DYNAMODB_TABLE cfg) (author_id message)) = true ->
  ddb_up env' (DdbDelete (DYNAMODB_TABLE cfg) (author_id message)) = true ->
  tbl (handleUnsubscribe env' cfg message'
         (tbl (handleSubscribe env cfg message t))) = t.
Proof.
  intros Hsame Hnone Hok Hget Hdel.
  destruct (flows_depend_on_author env' cfg message message' Hsame)
    as (_ & _ & ->).
  destruct (subscribe_success_table env cfg message t Hok) as (m & _ & ->).
  rewrite (handleUnsubscribe_removes env' cfg message _
             (mkItem (author_id message) (pending_marker +:+ trim (text m)))).
  - rewrite delete_insert_eq. now apply delete_id.
  - apply lookup_insert_eq.
  - discriminate.
  - exact Hget.
  - exact Hdel.
Qed.

Lemma subscribe_then_unsubscribe_restores_witness :
  tbl (handleUnsubscribe obliging bot_config (from_U "!unsubscribe")
         (tbl (handleSubscribe obliging bot_config (from_U "!subscribe")
                 no_record))) = no_record.
Proof.
  apply (subscribe_then_unsubscribe_restores obliging obliging bot_config
           (from_U "!subscribe") (from_U "!unsubscribe") no_record);
    reflexivity.
Defined.

(** ** All flows *)

Lemma flows_reject_on_lost_report env cfg message t e :
  (res (handleInspire env cfg message t) = Throw e ->
   e = GatewayError /\
   lost_report env (handleInspire env cfg message t) inspire_failed) /\
  (res (handleSubscribe env cfg message t) = Throw e ->
   e = GatewayError /\
   lost_report env (handleSubscribe env cfg message t) subscribe_failed) /\
  (res (handleUnsubscribe env cfg message t) = Throw e ->
   e = GatewayError /\
   lost_report env (handleUnsubscribe env cfg message t) unsubscribe_failed).
Proof.
  unfold lost_report. repeat split; revert H.
  all: walk; try (destruct (t !! author_id message) as [[u [|c number]]|];
                  cbn [PhoneNumber]; red_out; repeat (split_call; red_out));
       first [discriminate | now intros [= <-] | intros _; assumption
             | intros _; reflexivity].
Qed.

(** X17.  Every failure inside a flow is caught and reported to the author.
    The handler itself rejects in one case only: the report of a failure,
    its last call, could not be delivered. *)
Theorem handler_rejects_only_on_lost_report env cfg message t e :
  res (messageCreate env cfg message t) = Throw e ->
  e = GatewayError /\
  exists body,
    In body [inspire_failed; subscribe_failed; unsubscribe_failed] /\
    lost_report env (messageCreate env cfg message t) body.
Proof.
  destruct (flows_reject_on_lost_report env cfg message t e) as (Hi & Hs & Hu).
  destruct (author_bot message) eqn:Hbot.
  { rewrite messageCreate_bot by assumption. discriminate. }
  destruct (startsWith (content message) "!inspire") eqn:H1.
  { rewrite (messageCreate_inspire env cfg message t Hbot H1).
    intros H. destruct (Hi H) as (-> & Hlost).
    split; [reflexivity|]. exists inspire_failed. cbn; auto. }
  destruct (startsWith (content message) "!subscribe") eqn:H2.
  { rewrite (messageCreate_subscribe env cfg message t Hbot H2).
    intros H. destruct (Hs H) as (-> & Hlost).
    split; [reflexivity|]. exists subscribe_failed. cbn; auto. }
  destruct (startsWith (content message) "!unsubscribe") eqn:H3.
  { rewrite (messageCreate_unsubscribe env cfg message t Hbot H3).
    intros H. destruct (Hu H) as (-> & Hlost).
    split; [reflexivity|]. exists unsubscribe_failed. cbn; auto. }
  unfold messageCreate. rewrite Hbot, H1, H2, H3. discriminate.
Qed.

Lemma handler_rejects_only_on_lost_report_witness :
  res (messageCreate unreachable_author bot_config (from_U "!inspire") no_record)
  = Throw GatewayError /\
  exists body,
    In body [inspire_failed; subscribe_failed; unsubscribe_failed] /\
    lost_report unreachable_author
      (messageCreate unreachable_author bot_config (from_U "!inspire") no_record)
      body.
Proof.
  split; [reflexivity|].
  apply (handler_rejects_only_on_lost_report unreachable_author bot_config
           (from_U "!inspire") no_record GatewayError).
  reflexivity.
Defined.

Lemma messageCreate_frame env cfg message t userId :
  userId <> author_id message ->
  tbl (messageCreate env cfg message t) !! userId = t !! userId.
Proof.
  intros Hother.
  destruct (author_bot message) eqn:Hbot.
  { now rewrite messageCreate_bot. }
  destruct (startsWith (content message) "!inspire") eqn:H1.
  { rewrite (messageCreate_inspire env cfg message t Hbot H1).
    destruct (handleInspire_invariant cfg env message t) as [_ ->]. reflexivity. }
  destruct (startsWith (content message) "!subscribe") eqn:H2.
  { rewrite (messageCreate_subscribe env cfg message t Hbot H2).
    destruct (handleSubscribe_table env cfg message t) as [-> | [p ->]];
      [reflexivity|]. rewrite lookup_insert_ne by congruence. reflexivity. }
  destruct (startsWith (content message) "!unsubscribe") eqn:H3.
  { rewrite (messageCreate_unsubscribe env cfg message t Hbot H3).
    destruct (handleUnsubscribe_table env cfg message t) as [-> | ->];
      [reflexivity|]. rewrite lookup_delete_ne by congruence. reflexivity. }
  unfold messageCreate. rewrite Hbot, H1, H2, H3. reflexivity.
Qed.

(** X18.  Over any sequence of messages, the bot touches only the records
    of their authors: a user who wrote none of the messages has, at the
    end, the record they had at the start. *)
Theorem run_touches_only_authors cfg events t userId :
  Forall (fun event => author_id (snd event) <> userId) events ->
  fst (run cfg events t) !! userId = t !! userId.
Proof.
  intros Hothers. revert t.
  induction Hothers as [|[env message] events Hother _ IH]; intros t;
    [reflexivity|].
  cbn [run fst]. rewrite IH. apply messageCreate_frame.
  cbn in Hother. congruence.
Qed.

Lemma run_touches_only_authors_witness :
  fst (run bot_config
         [(obliging, mkMessage "V" false "!subscribe");
          (obliging, mkMessage "W" false "!unsubscribe")]
         confirmed_record) !! "U"
  = confirmed_record !! "U".
Proof.
  apply (run_touches_only_authors bot_config
           [(obliging, mkMessage "V" false "!subscribe");
            (obliging, mkMessage "W" false "!unsubscribe")]
           confirmed_record "U").
  repeat constructor; discriminate.
Defined.

(** ** Loading the secrets and starting *)

Lemma assigned_secrets_lookup (secrets env : gmap string string) name :
  assign "DYNAMODB_TABLE" (secrets !! "DYNAMODB_TABLE")
    (assign "TOPIC_ARN" (secrets !! "TOPIC_ARN")
       (assign "AWS_REGION" (secrets !! "AWS_REGION")
          (assign "DISCORD_TOKEN" (secrets !! "DISCORD_TOKEN") env))) !! name
  = if bool_decide (name ∈ secret_names)
    then Some (default "undefined" (secrets !! name))
    else env !! name.
Proof.
  unfold assign, secret_names.
  destruct (decide (name = "DYNAMODB_TABLE")) as [->|H4];
    [now rewrite lookup_insert_eq|rewrite lookup_insert_ne by congruence].
  destruct (decide (name = "TOPIC_ARN")) as [->|H3];
    [now rewrite lookup_insert_eq|rewrite lookup_insert_ne by congruence].
  destruct (decide (name = "AWS_REGION")) as [->|H2];
    [now rewrite lookup_insert_eq|rewrite lookup_insert_ne by congruence].
  destruct (decide (name = "DISCORD_TOKEN")) as [->|H1];
    [now rewrite lookup_insert_eq|rewrite lookup_insert_ne by congruence].
  rewrite bool_decide_eq_false_2; [reflexivity|].
  rewrite !elem_of_cons, elem_of_nil. intuition congruence.
Qed.

Lemma getSecrets_with_secret aws env text secrets :
  secret_value aws = Some (Some text) ->
  text <> EmptyString ->
  JSON_parse aws text = Some secrets ->
  getSecrets aws env =
  mkBootOut None
    (assign "DYNAMODB_TABLE" (secrets !! "DYNAMODB_TABLE")
       (assign "TOPIC_ARN" (secrets !! "TOPIC_ARN")
          (assign "AWS_REGION" (secrets !! "AWS_REGION")
             (assign "DISCORD_TOKEN" (secrets !! "DISCORD_TOKEN") env))))
    [GetSecretValue (env !! "AWS_REGION") "discord-bot-secrets"].
Proof.
  intros Hvalue Htext Hparse. unfold getSecrets. rewrite Hvalue.
  destruct text as [|c text]; [congruence|].
  cbn [truthy default from_option id]. now rewrite Hparse.
Qed.

(** X19.  [getSecrets] rejects in two cases only, when the GetSecretValue
    command is rejected and when a non-empty SecretString cannot be read as
    JSON; in both it leaves [process.env] exactly as it was and writes one
    line to the console. *)
Theorem getSecrets_rejects_iff aws env e :
  (rejected (getSecrets aws env) = Some e <->
   (secret_value aws = None /\ e = SecretsUnavailable) \/
   (exists text, secret_value aws = Some (Some text) /\ text <> EmptyString /\
                 JSON_parse aws text = None /\ e = SecretUnreadable)) /\
  (rejected (getSecrets aws env) = Some e ->
   vars (getSecrets aws env) = env /\
   boot_log (getSecrets aws env)
   = [GetSecretValue (env !! "AWS_REGION") "discord-bot-secrets";
      BootConsoleError "Error fetching secrets:" e]).
Proof.
  unfold getSecrets.
  destruct (secret_value aws) as [[[|c text]|]|]; cbn [truthy default from_option id].
  - split; [split|]; [discriminate| |discriminate].
    intros [[? _]|(text & Hsome & Hne & _)]; [discriminate|congruence].
  - destruct (JSON_parse aws (String c text)) eqn:Hparse; cbn [rejected vars boot_log].
    + split; [split|]; [discriminate| |discriminate].
      intros [[? _]|(text' & Hsome & _ & Hnone & _)]; [discriminate|congruence].
    + split; [split|].
      * intros [= <-]. right. exists (String c text). auto.
      * intros [[? _]|(text' & _ & _ & _ & ->)]; [discriminate|reflexivity].
      * intros [= <-]. auto.
  - split; [split|]; [discriminate| |discriminate].
    intros [[? _]|(text & Hsome & _)]; discriminate.
  - cbn [rejected vars boot_log]. split; [split|].
    + intros [= <-]. auto.
    + intros [[_ ->]|(text & Hsome & _)]; [reflexivity|discriminate].
    + intros [= <-]. auto.
Qed.

(** X20.  When the secret is read, exactly the four variables are
    overwritten and every other variable keeps its value.  A variable whose
    property is missing in the secret is set to the text "undefined", so
    afterwards all four are defined and the handler finds a configuration. *)
Theorem getSecrets_applies_secret aws env text secrets :
  secret_value aws = Some (Some text) ->
  text <> EmptyString ->
  JSON_parse aws text = Some secrets ->
  let loaded := getSecrets aws env in
  rejected loaded = None /\
  (forall name,
     vars loaded !! name
     = if bool_decide (name ∈ secret_names)
       then Some (default "undefined" (secrets !! name))
       else env !! name) /\
  config_of (vars loaded)
  = Some (mkProcessEnv (default "undefined" (secrets !! "TOPIC_ARN"))
            (default "undefined" (secrets !! "DYNAMODB_TABLE"))).
Proof.
  intros Hvalue Htext Hparse. cbv zeta.
  rewrite (getSecrets_with_secret aws env text secrets Hvalue Htext Hparse).
  cbn [rejected vars]. split; [reflexivity|]. split.
  - apply assigned_secrets_lookup.
  - unfold config_of. rewrite !assigned_secrets_lookup. reflexivity.
Qed.

Lemma getSecrets_applies_secret_witness :
  vars (getSecrets stored_secret shell_vars) !! "TOPIC_ARN" = Some "undefined" /\
  vars (getSecrets stored_secret shell_vars) !! "AWS_REGION" = Some "eu-west-1" /\
  vars (getSecrets stored_secret shell_vars) !! "HOME" = Some "/home/bot".
Proof.
  destruct (getSecrets_applies_secret stored_secret shell_vars "{...}"
              (list_to_map [("DISCORD_TOKEN", "token-1");
                            ("AWS_REGION", "eu-west-1");
                            ("DYNAMODB_TABLE", "PhoneNumbers")]))
    as (_ & Hvars & _); [reflexivity | discriminate | reflexivity |].
  rewrite !Hvars. repeat split.
Defined.

(** X21.  When [getSecrets] rejects, the bot does not start: no AWS client
    is built, [client.login] is not called, and the failure is written to the
    console a second time by the caller. *)
Theorem start_failure aws env e :
  rejected (getSecrets aws env) = Some e ->
  boot_log (start aws env)
  = [GetSecretValue (env !! "AWS_REGION") "discord-bot-secrets";
     BootConsoleError "Error fetching secrets:" e;
     BootConsoleError "Failed to load secrets and start the bot:" e] /\
  List.filter is_login (boot_log (start aws env)) = [] /\
  List.filter is_new_client (boot_log (start aws env)) = [] /\
  vars (start aws env) = env /\
  rejected (start aws env) = None.
Proof.
  intros Hrejected. unfold start. rewrite Hrejected. cbn [boot_log vars rejected].
  revert Hrejected. unfold getSecrets.
  destruct (secret_value aws) as [[[|c text]|]|]; cbn [truthy default from_option id];
    try discriminate.
  - destruct (JSON_parse aws (String c text)); [discriminate|].
    intros [= <-]. repeat split.
  - intros [= <-]. repeat split.
Qed.

Lemma start_failure_witness :
  boot_log (start secrets_down shell_vars)
  = [GetSecretValue (Some "us-east-1") "discord-bot-secrets";
     BootConsoleError "Error fetching secrets:" SecretsUnavailable;
     BootConsoleError "Failed to load secrets and start the bot:"
       SecretsUnavailable].
Proof.
  apply (start_failure secrets_down shell_vars SecretsUnavailable).
  reflexivity.
Defined.

(** X22.  When the secret is read, the secret itself is fetched in the
    region the process was started with, while the SNS and DynamoDB clients
    are built for the region named in the secret and the login uses the
    token of the secret; a property missing in the secret is passed on as
    the text "undefined". *)
Theorem start_with_secret aws env text secrets :
  secret_value aws = Some (Some text) ->
  text <> EmptyString ->
  JSON_parse aws text = Some secrets ->
  boot_log (start aws env)
  = [GetSecretValue (env !! "AWS_REGION") "discord-bot-secrets";
     NewSNSClient (Some (default "undefined" (secrets !! "AWS_REGION")));
     NewDynamoDBClient (Some (default "undefined" (secrets !! "AWS_REGION")));
     ClientLogin (Some (default "undefined" (secrets !! "DISCORD_TOKEN")))].
Proof.
  intros Hvalue Htext Hparse. unfold start.
  rewrite (getSecrets_with_secret aws env text secrets Hvalue Htext Hparse).
  cbn [rejected vars boot_log app]. rewrite !assigned_secrets_lookup. reflexivity.
Qed.

Lemma start_with_secret_witness :
  boot_log (start stored_secret shell_vars)
  = [GetSecretValue (Some "us-east-1") "discord-bot-secrets";
     NewSNSClient (Some "eu-west-1");
     NewDynamoDBClient (Some "eu-west-1");
     ClientLogin (Some "token-1")].
Proof.
  rewrite (start_with_secret stored_secret shell_vars "{...}"
             (list_to_map [("DISCORD_TOKEN", "token-1");
                           ("AWS_REGION", "eu-west-1");
                           ("DYNAMODB_TABLE", "PhoneNumbers")]));
    [reflexivity | reflexivity | discriminate | reflexivity].
Defined.

(** X23.  A response without a SecretString, or with an empty one, is no
    error: [getSecrets] changes nothing and the bot starts with the
    variables of the process as they are, logging in with whatever token
    was set there, possibly none. *)
Theorem start_without_secret_string aws env data :
  secret_value aws = Some data ->
  truthy data = false ->
  boot_log (start aws env)
  = [GetSecretValue (env !! "AWS_REGION") "discord-bot-secrets";
     NewSNSClient (env !! "AWS_REGION");
     NewDynamoDBClient (env !! "AWS_REGION");
     ClientLogin (env !! "DISCORD_TOKEN")] /\
  vars (start aws env) = env.
Proof.
  intros Hvalue Hfalsy. unfold start, getSecrets.
  rewrite Hvalue, Hfalsy. split; reflexivity.
Qed.

Lemma start_without_secret_string_witness :
  boot_log (start binary_secret shell_vars)
  = [GetSecretValue (Some "us-east-1") "discord-bot-secrets";
     NewSNSClient (Some "us-east-1");
     NewDynamoDBClient (Some "us-east-1");
     ClientLogin None].
Proof.
  destruct (start_without_secret_string binary_secret shell_vars None)
    as [Hlog _]; [reflexivity | reflexivity |].
  rewrite Hlog. reflexivity.
Defined.
